(** * Codebase-Genius analysis core: a shallow embedding of
    [src/doc_genie/analyzer.py] (path filter, code analyzer, manifest
    parsers, technology detector).

    Conventions of the model.
    - Python [str] is [string]; characters are [ascii].  [str.lower] is
      modelled on ASCII letters.
    - Python exceptions are the [Raise] branch of the [result] monad.
    - The numeric scores of the program ([complexity_score] and the
      technology confidences) are always multiples of 0.1 and are held as
      integer tenths ([Z]).  [round(x, 2)] of such a value is the value
      itself, which removes the last-bit error of the float products. *)

From Stdlib Require Import String Ascii List Bool ZArith Lia Permutation.
Import ListNotations.
Open Scope string_scope.
Open Scope bool_scope.
Set Warnings "-register-all".
Set Warnings "-notation-overridden".


(** ** Python string operations *)
Module PyStr.

(** [s.startswith(p)] *)
Fixpoint startswith (s p : string) : bool :=
  match p, s with
  | EmptyString, _ => true
  | String c p', String d s' => Ascii.eqb c d && startswith s' p'
  | String _ _, EmptyString => false
  end.

Fixpoint rev_str (s : string) : string :=
  match s with
  | EmptyString => EmptyString
  | String c s' => rev_str s' ++ String c EmptyString
  end.

(** [s.endswith(p)] *)
Definition endswith (s p : string) : bool :=
  startswith (rev_str s) (rev_str p).

(** [p in s] *)
Fixpoint contains (s p : string) : bool :=
  startswith s p ||
  match s with
  | EmptyString => false
  | String _ s' => contains s' p
  end.

(** [s[n:]] *)
Fixpoint drop (n : nat) (s : string) : string :=
  match n, s with
  | O, _ => s
  | S n', String _ s' => drop n' s'
  | S _, EmptyString => EmptyString
  end.

(** [s.count(sub)] for a non-empty [sub]: non-overlapping occurrences,
    scanned from the left. *)
Fixpoint count_go (fuel : nat) (s sub : string) : nat :=
  match fuel with
  | O => 0
  | S fuel' =>
      if startswith s sub then S (count_go fuel' (drop (String.length sub) s) sub)
      else match s with
           | EmptyString => 0
           | String _ s' => count_go fuel' s' sub
           end
  end.

Definition count (s sub : string) : nat :=
  match sub with
  | EmptyString => S (String.length s)
  | _ => count_go (S (String.length s)) s sub
  end.

(** [s.replace(old, new)] *)
Fixpoint replace_go (fuel : nat) (s old new : string) : string :=
  match fuel with
  | O => s
  | S fuel' =>
      if startswith s old then new ++ replace_go fuel' (drop (String.length old) s) old new
      else match s with
           | EmptyString => EmptyString
           | String c s' => String c (replace_go fuel' s' old new)
           end
  end.

Fixpoint interleave (s new : string) : string :=
  match s with
  | EmptyString => new
  | String c s' => new ++ String c (interleave s' new)
  end.

Definition replace (s old new : string) : string :=
  match old with
  | EmptyString => interleave s new
  | _ => replace_go (S (String.length s)) s old new
  end.

(** [s.split(sep)] for a one-character separator. *)
Fixpoint split (sep : ascii) (s : string) : list string :=
  match s with
  | EmptyString => [EmptyString]
  | String c s' =>
      if Ascii.eqb c sep then EmptyString :: split sep s'
      else match split sep s' with
           | x :: xs => String c x :: xs
           | [] => [String c EmptyString]
           end
  end.

(** [str.isspace] on the ASCII range: tab, LF, VT, FF, CR, the
    separators 0x1C-0x1F and space. *)
Definition is_space (c : ascii) : bool :=
  let n := nat_of_ascii c in
  (((9 <=? n) && (n <=? 13)) || ((28 <=? n) && (n <=? 32)))%nat.

Fixpoint lstrip_by (f : ascii -> bool) (s : string) : string :=
  match s with
  | EmptyString => EmptyString
  | String c s' => if f c then lstrip_by f s' else s
  end.

Definition rstrip_by (f : ascii -> bool) (s : string) : string :=
  rev_str (lstrip_by f (rev_str s)).

(** [s.strip()] *)
Definition strip (s : string) : string := rstrip_by is_space (lstrip_by is_space s).

(** [s.lower()] on ASCII letters. *)
Definition lower_char (c : ascii) : ascii :=
  let n := nat_of_ascii c in
  if ((65 <=? n) && (n <=? 90))%nat then ascii_of_nat (n + 32)%nat else c.

Fixpoint lower (s : string) : string :=
  match s with
  | EmptyString => EmptyString
  | String c s' => String (lower_char c) (lower s')
  end.

Fixpoint last_or (d : string) (l : list string) : string :=
  match l with
  | [] => d
  | [x] => x
  | _ :: l' => last_or d l'
  end.

(** [s.rfind(".")] as an option. *)
Fixpoint rfind_go (c : ascii) (i : nat) (s : string) (acc : option nat) : option nat :=
  match s with
  | EmptyString => acc
  | String d s' => rfind_go c (S i) s' (if Ascii.eqb c d then Some i else acc)
  end.

Definition rfind (c : ascii) (s : string) : option nat := rfind_go c 0 s None.



End PyStr.
Import PyStr.

(** ** Path filter (the file loop of [GitHubCodebaseAnalyzer.analyze_repository]) *)
Module PathFilter.

(** An entry of the recursive tree returned by the GitHub API. *)
Record tree_item := mk_item {
  item_path : string;
  item_type : string;
  item_size : Z
}.

(** [Path(file_name).suffix] (the CPython rule: the text from the last dot,
    when that dot is neither the first nor the last character). *)
Definition path_suffix (name : string) : string :=
  match rfind "." name with
  | Some i => if ((0 <? i) && (i <? String.length name - 1))%nat then drop i name else ""
  | None => ""
  end.

Definition excluded_extensions : list string :=
  [".png"; ".jpg"; ".jpeg"; ".gif"; ".ico"; ".svg";
   ".pdf"; ".zip"; ".tar"; ".gz"; ".exe"; ".bin"].

Definition is_excluded (ext : string) : bool :=
  existsb (String.eqb ext) excluded_extensions.

(** One ignore pattern against a path, the [if/elif] chain of the loop. *)
Definition pattern_matches (pattern file_path file_name : string) : bool :=
  if endswith pattern "/" && startswith file_path (rstrip_by (Ascii.eqb "/") pattern)
  then true
  else if startswith pattern "*." && endswith file_name (lstrip_by (Ascii.eqb "*") pattern)
  then true
  else (pattern =? file_name) || (pattern =? file_path).

(** [file_path.split('/')[-1]] *)
Definition file_name_of (file_path : string) : string := last_or "" (split "/" file_path).

(** [Path(file_name).suffix.lower()] *)
Definition extension_of (file_name : string) : string := lower (path_suffix file_name).

(** The checks the loop evaluates, in evaluation order. *)
Inductive check := IgnorePattern (p : string) | SizeCheck | ExtensionCheck.

(** [for pattern in ignore_patterns: ... break]: the flag [ignored] and the
    patterns looked at, in iteration order. *)
Fixpoint ignore_scan (patterns : list string) (file_path file_name : string)
  : bool * list check :=
  match patterns with
  | [] => (false, [])
  | p :: ps =>
      if pattern_matches p file_path file_name then (true, [IgnorePattern p])
      else let (ign, tr) := ignore_scan ps file_path file_name in
           (ign, IgnorePattern p :: tr)
  end.

Definition max_file_size : Z := 100000%Z.

(** The decision for one tree entry, with the trace of evaluated checks:
    [if item["type"] == "blob"] then the pattern loop, then
    [not ignored and item["size"] < 100000 and extension not in excluded_extensions]
    with Python's short-circuit [and]. *)
Definition should_analyze_trace (patterns : list string) (item : tree_item) : bool * list check :=
  if item_type item =? "blob" then
    let file_path := item_path item in
    let file_name := file_name_of file_path in
    let extension := extension_of file_name in
    let (ignored, tr) := ignore_scan patterns file_path file_name in
    if ignored then (false, tr)
    else if (item_size item <? max_file_size)%Z
    then (negb (is_excluded extension), (tr ++ [SizeCheck; ExtensionCheck])%list)
    else (false, (tr ++ [SizeCheck])%list)
  else (false, []).

Definition should_analyze (patterns : list string) (item : tree_item) : bool :=
  fst (should_analyze_trace patterns item).

(** [files_to_analyze] before the 50-file cap. *)
Definition files_to_analyze (patterns : list string) (tree : list tree_item) : list tree_item :=
  filter (should_analyze patterns) tree.

End PathFilter.

(** ** Per-file code analyzer ([File] and [CodeAnalyzer]) *)
Module Analyzer.

(** The statements of Python's [ast] module, as far as [ast.walk] and the
    [isinstance] tests of [_analyze_python_code] tell them apart. *)
Inductive py_stmt :=
| FunctionDef (name : string) (body : list py_stmt)
| AsyncFunctionDef (name : string) (body : list py_stmt)
| ClassDef (name : string) (body : list py_stmt)
| Compound (bodies : list py_stmt)  (** if/for/while/with/try and the like *)
| Simple.                           (** a statement with no statement inside *)

(** [ast.Module]: the result of [ast.parse]. *)
Definition py_module := list py_stmt.

(** [for node in ast.walk(tree)]: [isinstance(node, ast.FunctionDef)] adds
    to [functions], [isinstance(node, ast.ClassDef)] to [classes]. *)
Fixpoint walk_counts (s : py_stmt) : nat * nat :=
  let fix walk_list (l : list py_stmt) : nat * nat :=
    match l with
    | [] => (0, 0)
    | x :: xs => let (f1, c1) := walk_counts x in
                 let (f2, c2) := walk_list xs in (f1 + f2, c1 + c2)
    end%nat in
  match s with
  | FunctionDef _ b => let (f, c) := walk_list b in (S f, c)
  | AsyncFunctionDef _ b => walk_list b
  | ClassDef _ b => let (f, c) := walk_list b in (f, S c)
  | Compound b => walk_list b
  | Simple => (0, 0)
  end%nat.

Fixpoint module_counts (m : py_module) : nat * nat :=
  match m with
  | [] => (0, 0)
  | x :: xs => let (f1, c1) := walk_counts x in
               let (f2, c2) := module_counts xs in (f1 + f2, c1 + c2)
  end%nat.

(** [File]; [complexity_score] in tenths. *)
Record file := mk_file {
  path : string;
  name : string;
  extension : string;
  size : Z;
  content : string;
  language : string;
  line_count : nat;
  function_count : nat;
  class_count : nat;
  complexity_score : Z
}.

Definition extension_map : list (string * string) :=
  [("py", "Python"); ("js", "JavaScript"); ("ts", "TypeScript"); ("java", "Java");
   ("cpp", "C++"); ("c", "C"); ("go", "Go"); ("rs", "Rust"); ("rb", "Ruby");
   ("php", "PHP"); ("cs", "C#"); ("swift", "Swift"); ("kt", "Kotlin");
   ("html", "HTML"); ("css", "CSS"); ("json", "JSON"); ("yaml", "YAML"); ("yml", "YAML")].

Fixpoint assoc_str {A} (k : string) (l : list (string * A)) : option A :=
  match l with
  | [] => None
  | (k', v) :: l' => if k =? k' then Some v else assoc_str k l'
  end.

(** [File._detect_language] *)
Definition detect_language (ext : string) : string :=
  match assoc_str (lower ext) extension_map with
  | Some l => l
  | None => "Unknown"
  end.

(** [File(path, name, extension, size, content)] *)
Definition new_file (p n e : string) (sz : Z) (c : string) : file :=
  mk_file p n e sz c (detect_language e) 0 0 0 0%Z.

Definition set_counts (f : file) (fc cc : nat) : file :=
  mk_file (path f) (name f) (extension f) (size f) (content f) (language f)
          (line_count f) fc cc (complexity_score f).

Definition set_line_count (f : file) (n : nat) : file :=
  mk_file (path f) (name f) (extension f) (size f) (content f) (language f)
          n (function_count f) (class_count f) (complexity_score f).

Definition set_complexity (f : file) (x : Z) : file :=
  mk_file (path f) (name f) (extension f) (size f) (content f) (language f)
          (line_count f) (function_count f) (class_count f) x.

Definition control_structures : list string :=
  ["if"; "for"; "while"; "switch"; "case"; "try"; "catch"].

(** [_calculate_complexity], in tenths: [len(lines) * 0.1] is [len(lines)]
    tenths and each [content.lower().count(structure) * 0.5] adds five
    tenths per occurrence. *)
Definition calculate_complexity (c : string) : Z :=
  fold_left (fun acc structure => acc + 5 * Z.of_nat (count (lower c) structure))%Z
            control_structures (Z.of_nat (List.length (split "010" c))).

Definition function_keywords : list string :=
  ["function"; "def"; "func"; "sub"; "procedure"; "method"].
Definition class_keywords : list string := ["class"; "struct"; "interface"; "type"].

(** [_analyze_generic_code] *)
Definition analyze_generic_code (f : file) : file :=
  let c := lower (content f) in
  set_counts f (list_sum (map (count c) function_keywords))
               (list_sum (map (count c) class_keywords)).

Section CodeAnalyzer.

(** [ast.parse]: [None] when it raises. *)
Variable ast_parse : string -> option py_module.
(** The five function patterns and the class pattern of
    [_analyze_javascript_code], counted by [re.findall]. *)
Variable js_regex_counts : string -> nat * nat.

(** [_analyze_python_code]: on an exception the counts are left as they are. *)
Definition analyze_python_code (f : file) : file :=
  match ast_parse (content f) with
  | Some tree => let (functions, classes) := module_counts tree in set_counts f functions classes
  | None => f
  end.

Definition analyze_javascript_code (f : file) : file :=
  let (functions, classes) := js_regex_counts (content f) in set_counts f functions classes.

(** [CodeAnalyzer.analyze_file] *)
Definition analyze_file (f : file) : file :=
  if content f =? "" then f
  else
    let f1 := set_line_count f (List.length (split "010" (content f))) in
    let f2 := if language f1 =? "Python" then analyze_python_code f1
              else if (language f1 =? "JavaScript") || (language f1 =? "TypeScript")
              then analyze_javascript_code f1
              else analyze_generic_code f1 in
    set_complexity f2 (calculate_complexity (content f2)).

End CodeAnalyzer.

End Analyzer.

(** ** Python exceptions *)
Module Py.

Inductive exn := IndexError | KeyError | TypeError | AttributeError | JSONDecodeError.

Inductive result (A : Type) :=
| Ok (a : A)
| Raise (e : exn).
Arguments Ok {A} a.
Arguments Raise {A} e.

Definition bind {A B} (m : result A) (k : A -> result B) : result B :=
  match m with
  | Ok a => k a
  | Raise e => Raise e
  end.

(** [l[i]] *)
Fixpoint nth_err {A} (l : list A) (i : nat) : result A :=
  match l, i with
  | [], _ => Raise IndexError
  | x :: _, O => Ok x
  | _ :: l', S i' => nth_err l' i'
  end.

Definition is_ok {A} (r : result A) : bool :=
  match r with Ok _ => true | Raise _ => false end.

End Py.
Import Py.

Notation "x <- m ;; k" := (bind m (fun x => k))
  (at level 61, m at next level, right associativity).

(** ** Manifest parsers ([DependencyAnalyzer]) *)
Module Deps.

(** The values [json.loads] produces. *)
Inductive pyobj :=
| PNone
| PBool (b : bool)
| PInt (z : Z)
| PStr (s : string)
| PList (l : list pyobj)
| PDict (kv : list (string * pyobj)).

(** A dependency dict [{"name", "version", "type", "is_dev"}]. *)
Record dep := mk_dep {
  dep_name : string;
  dep_version : pyobj;
  dep_type : string;
  is_dev : bool
}.

Definition dq : ascii := ascii_of_nat 34.

(** *** requirements.txt *)

Definition is_req_op (c : ascii) : bool :=
  existsb (Ascii.eqb c) [">"; "="; "<"; "~"; "!"]%char.

(** [re.split(r'[>=<~!]', line)] *)
Fixpoint re_split_ops (s : string) : list string :=
  match s with
  | EmptyString => [EmptyString]
  | String c s' =>
      if is_req_op c then EmptyString :: re_split_ops s'
      else match re_split_ops s' with
           | x :: xs => String c x :: xs
           | [] => [String c EmptyString]
           end
  end.

Definition parse_pip_line (raw : string) : result (list dep) :=
  let line := strip raw in
  if (line =? "") || startswith line "#" then Ok []
  else
    first <- nth_err (re_split_ops line) 0 ;;
    let name_version := strip first in
    let v := strip (replace line name_version "") in
    let version := if v =? "" then "*" else v in
    Ok [mk_dep name_version (PStr version) "pip" false].

Fixpoint parse_pip_lines (lines : list string) : result (list dep) :=
  match lines with
  | [] => Ok []
  | l :: ls => d <- parse_pip_line l ;; rest <- parse_pip_lines ls ;; Ok (d ++ rest)%list
  end.

(** [_parse_pip_dependencies] *)
Definition parse_pip_dependencies (c : string) : result (list dep) :=
  parse_pip_lines (split "010" c).

(** *** Pipfile *)

(** [line[1:-1]] for a line of at least two characters. *)
Definition inner (s : string) : string := substring 1 (String.length s - 2) s.

(** [line.split('=')[0].strip()] and
    [line.split('=')[1].strip()] with every double-quote character removed. *)
Definition name_and_version (line : string) : result (string * string) :=
  n <- nth_err (split "=" line) 0 ;;
  v <- nth_err (split "=" line) 1 ;;
  Ok (strip n, replace (strip v) (String dq EmptyString) "").

Fixpoint pipfile_go (current_section : string) (lines : list string) : result (list dep) :=
  match lines with
  | [] => Ok []
  | l :: ls =>
      let line := strip l in
      if startswith line "[" && endswith line "]" then pipfile_go (inner line) ls
      else if contains line "=" &&
              ((current_section =? "packages") || (current_section =? "dev-packages")) then
        nv <- name_and_version line ;;
        rest <- pipfile_go current_section ls ;;
        Ok (mk_dep (fst nv) (PStr (snd nv)) "pipenv" (current_section =? "dev-packages") :: rest)
      else pipfile_go current_section ls
  end.

(** [_parse_pipfile_dependencies] *)
Definition parse_pipfile_dependencies (c : string) : result (list dep) :=
  pipfile_go "" (split "010" c).

(** *** Cargo.toml *)

Fixpoint cargo_go (in_dependencies : bool) (lines : list string) : result (list dep) :=
  match lines with
  | [] => Ok []
  | l :: ls =>
      let line := strip l in
      if line =? "[dependencies]" then cargo_go true ls
      else if startswith line "[" && negb (line =? "[dependencies]") then cargo_go false ls
      else if in_dependencies && contains line "=" then
        nv <- name_and_version line ;;
        rest <- cargo_go in_dependencies ls ;;
        Ok (mk_dep (fst nv) (PStr (snd nv)) "cargo" false :: rest)
      else cargo_go in_dependencies ls
  end.

(** [_parse_cargo_dependencies] *)
Definition parse_cargo_dependencies (c : string) : result (list dep) :=
  cargo_go false (split "010" c).

(** *** go.mod *)

(** [s.split()]: maximal runs of non-whitespace. *)
Fixpoint split_ws_go (s acc : string) : list string :=
  match s with
  | EmptyString => if acc =? "" then [] else [rev_str acc]
  | String c s' =>
      if is_space c then (if acc =? "" then [] else [rev_str acc]) ++ split_ws_go s' ""
      else split_ws_go s' (String c acc)
  end%list.

Definition split_ws (s : string) : list string := split_ws_go s "".

Definition parse_go_line (raw : string) : result (list dep) :=
  let line := strip raw in
  if contains line "require" ||
     (contains line " v" && negb (startswith line "module") && negb (startswith line "go "))
  then
    let parts := split_ws (strip (replace line "require" "")) in
    if (2 <=? List.length parts)%nat then
      n <- nth_err parts 0 ;; v <- nth_err parts 1 ;;
      Ok [mk_dep n (PStr v) "go" false]
    else Ok []
  else Ok [].

Fixpoint parse_go_lines (lines : list string) : result (list dep) :=
  match lines with
  | [] => Ok []
  | l :: ls => d <- parse_go_line l ;; rest <- parse_go_lines ls ;; Ok (d ++ rest)%list
  end.

(** [_parse_go_dependencies] *)
Definition parse_go_dependencies (c : string) : result (list dep) :=
  parse_go_lines (split "010" c).

(** *** pom.xml *)

(** A literal of the pattern. *)
Definition expect (lit s : string) : option string :=
  if startswith s lit then Some (drop (String.length lit) s) else None.

(** [([^<]+)]: greedy, and it can only end just before a [<]. *)
Fixpoint take_non_lt (s : string) : string * string :=
  match s with
  | EmptyString => (EmptyString, EmptyString)
  | String c s' =>
      if Ascii.eqb c "<" then (EmptyString, s)
      else let (r, rest) := take_non_lt s' in (String c r, rest)
  end.

Definition group (s : string) : option (string * string) :=
  let (r, rest) := take_non_lt s in
  if r =? "" then None else Some (r, rest).

Definition obind {A B} (m : option A) (k : A -> option B) : option B :=
  match m with Some a => k a | None => None end.

(** The artifact pattern matched at the start of [s]: the three groups and
    the text after the match.  [\s*] is followed by [<], so it takes every
    whitespace character. *)
Definition artifact_at (s : string) : option (string * string * string * string) :=
  obind (expect "<groupId>" s) (fun s1 =>
  obind (group s1) (fun '(g, s2) =>
  obind (expect "</groupId>" s2) (fun s3 =>
  obind (expect "<artifactId>" (lstrip_by is_space s3)) (fun s4 =>
  obind (group s4) (fun '(a, s5) =>
  obind (expect "</artifactId>" s5) (fun s6 =>
  obind (expect "<version>" (lstrip_by is_space s6)) (fun s7 =>
  obind (group s7) (fun '(v, s8) =>
  obind (expect "</version>" s8) (fun s9 =>
  Some (g, a, v, s9)))))))))).

(** [re.findall(artifact_pattern, content, re.MULTILINE | re.DOTALL)] *)
Fixpoint findall_artifacts (fuel : nat) (s : string) : list (string * string * string) :=
  match fuel with
  | O => []
  | S fuel' =>
      match artifact_at s with
      | Some (g, a, v, rest) => (g, a, v) :: findall_artifacts fuel' rest
      | None => match s with
                | EmptyString => []
                | String _ s' => findall_artifacts fuel' s'
                end
      end
  end.

(** [_parse_maven_dependencies] *)
Definition parse_maven_dependencies (c : string) : result (list dep) :=
  Ok (map (fun '(g, a, v) => mk_dep (g ++ ":" ++ a) (PStr v) "maven" false)
          (findall_artifacts (S (String.length c)) c)).

(** *** package.json and composer.json *)

(** [key in data] *)
Definition py_in (key : string) (data : pyobj) : result bool :=
  match data with
  | PDict kv => Ok (existsb (fun '(k, _) => k =? key) kv)
  | PList l => Ok (existsb (fun o => match o with PStr s => s =? key | _ => false end) l)
  | PStr s => Ok (contains s key)
  | _ => Raise TypeError
  end.

(** [data[key]] with a string key *)
Definition py_getitem (data : pyobj) (key : string) : result pyobj :=
  match data with
  | PDict kv => match Analyzer.assoc_str key kv with
                | Some v => Ok v
                | None => Raise KeyError
                end
  | _ => Raise TypeError
  end.

(** [obj.items()] *)
Definition py_items (o : pyobj) : result (list (string * pyobj)) :=
  match o with
  | PDict kv => Ok kv
  | _ => Raise AttributeError
  end.

(** The loop [for dep_type in keys: if dep_type in data: for name, version
    in data[dep_type].items(): ...] of the npm and Composer parsers, on the
    object [json.loads] returned. *)
Fixpoint json_deps (kind dev_key : string) (data : pyobj) (keys : list string)
  : result (list dep) :=
  match keys with
  | [] => Ok []
  | dep_type :: ks =>
      present <- py_in dep_type data ;;
      here <- (if present then
                 section <- py_getitem data dep_type ;;
                 entries <- py_items section ;;
                 Ok (map (fun '(n, v) => mk_dep n v kind (dep_type =? dev_key)) entries)
               else Ok []) ;;
      rest <- json_deps kind dev_key data ks ;;
      Ok (here ++ rest)%list
  end.

Definition npm_of_data (data : pyobj) : result (list dep) :=
  json_deps "npm" "devDependencies" data ["dependencies"; "devDependencies"].

Definition composer_of_data (data : pyobj) : result (list dep) :=
  json_deps "composer" "require-dev" data ["require"; "require-dev"].

Section Registry.

(** [json.loads]: [Raise JSONDecodeError] on text that is not JSON. *)
Variable json_loads : string -> result pyobj.

(** [_parse_npm_dependencies] *)
Definition parse_npm_dependencies (c : string) : result (list dep) :=
  data <- json_loads c ;; npm_of_data data.

(** [_parse_composer_dependencies] *)
Definition parse_composer_dependencies (c : string) : result (list dep) :=
  data <- json_loads c ;; composer_of_data data.

(** [self.package_managers] *)
Definition package_managers : list (string * (string -> result (list dep))) :=
  [("package.json", parse_npm_dependencies);
   ("requirements.txt", parse_pip_dependencies);
   ("Pipfile", parse_pipfile_dependencies);
   ("Cargo.toml", parse_cargo_dependencies);
   ("go.mod", parse_go_dependencies);
   ("pom.xml", parse_maven_dependencies);
   ("composer.json", parse_composer_dependencies)].

(** [DependencyAnalyzer.analyze_repository], with [fetch] standing for
    [github_client.fetch_file_content(repo.url, file_name)] (which returns
    the empty string on failure): a parser that raises is caught and adds
    nothing. *)
Fixpoint collect_deps (fetch : string -> string)
         (managers : list (string * (string -> result (list dep)))) : list dep :=
  match managers with
  | [] => []
  | (file_name, parser) :: ms =>
      let c := fetch file_name in
      let here := if c =? "" then []
                  else match parser c with
                       | Ok deps => deps
                       | Raise _ => []
                       end in
      (here ++ collect_deps fetch ms)%list
  end.

Definition analyze_dependencies (fetch : string -> string) : list dep :=
  collect_deps fetch package_managers.

End Registry.

End Deps.

(** ** Technology detector ([TechnologyDetector]) *)
Module Tech.

(** Python's [max(a, b)]: [b] when [b > a], else [a]. *)
Definition py_max (a b : Z) : Z := if (a <? b)%Z then b else a.

(** [pattern] of a raw string literal containing a double quote. *)
Definition q : string := String Deps.dq EmptyString.

(** [self.technology_patterns] *)
Definition technology_patterns : list (string * list (string * list string)) :=
  [("frameworks",
    [("React", ["import.*react"; "from ['\" ++ q ++ "]react['\" ++ q ++ "]"; "react"]);
     ("Angular", ["@angular"; "ng\."; "angular"]);
     ("Vue", ["import.*vue"; "from ['\" ++ q ++ "]vue['\" ++ q ++ "]"; "vue"]);
     ("Django", ["from django"; "import django"; "django"]);
     ("Flask", ["from flask"; "import flask"; "flask"]);
     ("Express", ["express\(\)"; "require\(['\" ++ q ++ "]express['\" ++ q ++ "]"; "express"]);
     ("Spring Boot", ["@SpringBootApplication"; "spring-boot"; "spring"]);
     ("Laravel", ["use Illuminate"; "laravel/framework"; "laravel"])]);
   ("databases",
    [("MongoDB", ["mongodb://"; "mongoose"; "pymongo"; "mongodb"]);
     ("PostgreSQL", ["postgresql://"; "psycopg2"; "pg"; "postgresql"]);
     ("MySQL", ["mysql://"; "mysql2"; "pymysql"; "mysql"]);
     ("Redis", ["redis://"; "redis"; "jedis"; "redis"]);
     ("SQLite", ["sqlite3"; "sqlite"; "better-sqlite3"; "sqlite"])]);
   ("testing",
    [("Jest", ["describe\("; "test\("; "it\("; "jest"]);
     ("PyTest", ["def test_"; "pytest"; "pytest"]);
     ("JUnit", ["@Test"; "junit"; "junit"]);
     ("Mocha", ["describe\("; "it\("; "mocha"])])].

(** A Python dict from technology name to confidence (tenths), in
    insertion order. *)
Definition dict := list (string * Z).

(** [d.get(k)] *)
Fixpoint dict_get (k : string) (d : dict) : option Z :=
  match d with
  | [] => None
  | (k', v) :: d' => if k' =? k then Some v else dict_get k d'
  end.

(** [d[k] = v] *)
Fixpoint dict_set (k : string) (v : Z) (d : dict) : dict :=
  match d with
  | [] => [(k, v)]
  | (k', v') :: d' => if k' =? k then (k', v) :: d' else (k', v') :: dict_set k v d'
  end.

Definition odflt (o : option Z) : Z := match o with Some v => v | None => 0%Z end.

(** [detected[tech_name] = max(detected.get(tech_name, 0), confidence)] *)
Definition update_max (d : dict) (kv : string * Z) : dict :=
  dict_set (fst kv) (py_max (odflt (dict_get (fst kv) d)) (snd kv)) d.

(** [technology_patterns.items()] flattened over the categories. *)
Definition all_technologies : list (string * list string) :=
  flat_map snd technology_patterns.

(** The record [{"name", "category", "confidence"}]. *)
Record technology := mk_tech {
  tech_name : string;
  tech_category : string;
  confidence : Z
}.

(** [_get_technology_category] *)
Fixpoint category_of (t : string) (cats : list (string * list (string * list string))) : string :=
  match cats with
  | [] => "other"
  | (cat, techs) :: cs =>
      if existsb (fun '(n, _) => n =? t) techs then cat else category_of t cs
  end.

(** [_analyze_dependency] (0.8 is eight tenths) *)
Definition dependency_step (dep_lower : string) (d : dict) (tp : string * list string) : dict :=
  if existsb (fun p => contains dep_lower (lower p)) (snd tp)
  then dict_set (fst tp) 8%Z d else d.

Definition analyze_dependency (dependency_name : string) : dict :=
  fold_left (fun d '(_, techs) => fold_left (dependency_step (lower dependency_name)) techs d)
            technology_patterns [].

Section Detector.

(** [len(re.findall(pattern, content, re.IGNORECASE | re.MULTILINE))] *)
Variable findall_count : string -> string -> nat.

(** The per-pattern loop of [_analyze_file_content]:
    [confidence = max(confidence, min(len(matches) * 0.3, 1.0))]. *)
Definition pattern_step (c : string) (conf : Z) (pattern : string) : Z :=
  if negb (startswith pattern "\.") then
    let m := findall_count pattern c in
    if (0 <? m)%nat then py_max conf (Z.min (3 * Z.of_nat m) 10) else conf
  else conf.

Definition tech_confidence (c : string) (patterns : list string) : Z :=
  fold_left (pattern_step c) patterns 0%Z.

Definition content_step (c : string) (d : dict) (tp : string * list string) : dict :=
  let conf := tech_confidence c (snd tp) in
  if (0 <? conf)%Z then dict_set (fst tp) conf d else d.

(** [_analyze_file_content] *)
Definition analyze_file_content (c : string) : dict :=
  fold_left (fun d '(_, techs) => fold_left (content_step c) techs d)
            technology_patterns [].

(** [detect_technologies]: the file loop, then the dependency loop, then
    the threshold [confidence > 0.1]. *)
Definition detect_technologies (files : list Analyzer.file) (deps : list Deps.dep)
  : list technology :=
  let d1 := fold_left (fun d f =>
              if Analyzer.content f =? "" then d
              else fold_left update_max (analyze_file_content (Analyzer.content f)) d)
              files [] in
  let d2 := fold_left (fun d dp =>
              fold_left update_max (analyze_dependency (Deps.dep_name dp)) d)
              deps d1 in
  flat_map (fun '(n, conf) =>
              if (1 <? conf)%Z then [mk_tech n (category_of n technology_patterns) conf]
              else [])
           d2.

End Detector.

(** The confidence reported for technology [t], if it is reported. *)
Fixpoint conf_of (t : string) (l : list technology) : option Z :=
  match l with
  | [] => None
  | x :: l' => if tech_name x =? t then Some (confidence x) else conf_of t l'
  end.

End Tech.

(** ** Reference readings of the specification and sample inputs *)
Module Reference.
Import Analyzer Deps.

Definition nl : string := String "010" EmptyString.

(** Spec reading (C2): the number of function definitions of a module,
    [def] and [async def] alike, at any depth. *)
Fixpoint defined_functions_stmt (s : py_stmt) : nat :=
  let fix in_list (l : list py_stmt) : nat :=
    match l with
    | [] => 0
    | x :: xs => defined_functions_stmt x + in_list xs
    end%nat in
  match s with
  | FunctionDef _ b | AsyncFunctionDef _ b => S (in_list b)
  | ClassDef _ b | Compound b => in_list b
  | Simple => 0
  end%nat.

Definition defined_functions (m : py_module) : nat :=
  list_sum (map defined_functions_stmt m).

(** [async def fetch():] with a [pass] body, and its tree. *)
Definition async_source : string := "async def fetch():" ++ nl ++ "    pass" ++ nl.
Definition async_tree : py_module := [AsyncFunctionDef "fetch" [Simple]].

(** [ast.parse] on the one text it is applied to below. *)
Definition parse_async_source (s : string) : option py_module :=
  if s =? async_source then Some async_tree else None.

(** Spec reading (C8): [0.1 * line_count + 0.5 * (keyword counts)], in tenths. *)
Definition complexity_formula (c : string) : Z :=
  (Z.of_nat (List.length (split "010" c)) +
   5 * Z.of_nat (list_sum (map (count (lower c)) control_structures)))%Z.

Fixpoint newlines (n : nat) : string :=
  match n with
  | O => EmptyString
  | S n' => String "010" (newlines n')
  end.

(** A 1,000-line file with five [if] and three [for]. *)
Definition thousand_lines : string := "if if if if if for for for" ++ newlines 999.

(** Spec reading (C7): the name is the text before the first operator
    character, the version the text from it on, both stripped, and [*]
    without an operator. *)
Definition requirement_split (line : string) : string * string :=
  let fix go (s : string) : string * string :=
    match s with
    | EmptyString => (EmptyString, EmptyString)
    | String c s' => if is_req_op c then (EmptyString, s)
                     else let (n, v) := go s' in (String c n, v)
    end in
  let (n, v) := go (strip line) in
  (strip n, if strip v =? "" then "*" else strip v).

Definition pip_sample : string :=
  "flask>=2.0" ++ nl ++ "# comment" ++ nl ++ "requests" ++ nl.

Definition pipfile_sample : string :=
  "[packages]" ++ nl ++ "requests = " ++ String dq EmptyString ++ ">=2.0"
  ++ String dq EmptyString ++ nl.

(** Spec reading (C5, C6): the detection patterns of technology [t]. *)
Definition patterns_of (t : string) : list string :=
  match assoc_str t Tech.all_technologies with
  | Some ps => ps
  | None => []
  end.

(** Content evidence: for each file with content and each pattern of [t]
    not starting with [\.] that matches [m > 0] times, [min(m * 0.3, 1.0)]. *)
Definition pattern_evidence (findall_count : string -> string -> nat) (c p : string)
  : list Z :=
  if negb (startswith p "\.") then
    let m := findall_count p c in
    if (0 <? m)%nat then [Z.min (3 * Z.of_nat m) 10]%Z else []
  else [].

Definition content_evidence (findall_count : string -> string -> nat) (t : string)
           (files : list file) : list Z :=
  flat_map (fun f =>
    if content f =? "" then []
    else flat_map (pattern_evidence findall_count (content f)) (patterns_of t)) files.

(** Dependency evidence: 0.8 for each dependency and each pattern of [t]
    found, case-insensitively, in the dependency name. *)
Definition dependency_evidence (t : string) (deps : list dep) : list Z :=
  flat_map (fun d =>
    flat_map (fun p => if contains (lower (dep_name d)) (lower p) then [8%Z] else [])
             (patterns_of t)) deps.

Definition evidence (findall_count : string -> string -> nat) (t : string)
           (files : list file) (deps : list dep) : list Z :=
  (content_evidence findall_count t files ++ dependency_evidence t deps)%list.

(** The maximum of a list of contributions, [None] for no contribution. *)
Definition max_opt (l : list Z) : option Z :=
  match l with
  | [] => None
  | _ => Some (fold_right Z.max 0%Z l)
  end.

End Reference.

(** ** Auxiliary definitions for the detector's proofs *)
Module TechAux.
Import Analyzer Deps Tech.

(** The values a list of dict updates carries for key [t]. *)
Definition vals (t : string) (l : list (string * Z)) : list Z :=
  map snd (filter (fun kv => fst kv =? t) l).

(** One [max(detected.get(t, 0), v)] step on the value of a single key. *)
Definition omax (o : option Z) (v : Z) : option Z := Some (py_max (odflt o) v).

(** The updates the file loop and the dependency loop apply, in order. *)
Definition file_updates (findall_count : string -> string -> nat) (files : list file)
  : list (string * Z) :=
  flat_map (fun f => if content f =? "" then []
                     else analyze_file_content findall_count (content f)) files.

Definition dep_updates (deps : list dep) : list (string * Z) :=
  flat_map (fun dp => analyze_dependency (dep_name dp)) deps.

(** [technology_patterns] has no technology twice. *)
Fixpoint nodupb (l : list string) : bool :=
  match l with
  | [] => true
  | x :: xs => negb (existsb (String.eqb x) xs) && nodupb xs
  end.

End TechAux.

(** ** GitHub client ([GitHubAPIClient]) *)
Module Client.
Import PathFilter.

Definition github_prefix : string := "https://github.com/".

(** [_parse_repo_url]: [None] stands for
    [raise ValueError("Invalid GitHub URL format")]. *)
Definition parse_repo_url (repo_url : string) : option (string * string) :=
  let parts := split "/" (replace repo_url github_prefix "") in
  if (List.length parts <? 2)%nat then None
  else match parts with
       | p0 :: p1 :: _ => Some (p0, p1)
       | _ => None
       end.

Definition readme_files : list string :=
  ["README.md"; "readme.md"; "README.rst"; "README.txt"; "README"].

Section Fetch.

(** [self.fetch_file_content(repo_url, file_path)] for the repository at
    hand, as a function of the path (it returns the empty string when the
    request fails). *)
Variable fetch_file_content : string -> string.

Fixpoint fetch_readme_go (names : list string) : string :=
  match names with
  | [] => "No README file found"
  | readme_file :: ns =>
      let content := fetch_file_content readme_file in
      if content =? "" then fetch_readme_go ns else content
  end.

(** [fetch_readme] *)
Definition fetch_readme : string := fetch_readme_go readme_files.

(** The request of [fetch_repository_tree] for one branch: [None] when it
    raises (network error, [raise_for_status], a JSON body that is not an
    object), [Some None] when the JSON object has no ["tree"] key. *)
Variable tree_request : string -> option (option (list tree_item)).

(** The [try] block: [data.get("tree", [])], [None] on an exception. *)
Definition tree_attempt (branch : string) : option (list tree_item) :=
  match tree_request branch with
  | Some (Some t) => Some t
  | Some None => Some []
  | None => None
  end.

(** [fetch_repository_tree]: on an exception for ["main"] the function calls
    itself once with ["master"], whose own exception gives [[]]. *)
Definition fetch_repository_tree (branch : string) : list tree_item :=
  match tree_attempt branch with
  | Some t => t
  | None =>
      if branch =? "main" then
        match tree_attempt "master" with
        | Some t => t
        | None => []
        end
      else []
  end.

End Fetch.

End Client.

(** ** The [.gitignore] patterns (step 2.5 of [analyze_repository]) *)
Module Gitignore.

(** The line boundaries of [str.splitlines] on the ASCII range: LF, VT, FF,
    CR and the separators 0x1C-0x1E. *)
Definition is_line_boundary (c : ascii) : bool :=
  let n := nat_of_ascii c in
  (((10 <=? n) && (n <=? 13)) || ((28 <=? n) && (n <=? 30)))%nat.

(** [s.splitlines()], with [cur] the current line reversed; [CR LF] is one
    boundary and a final boundary opens no empty line. *)
Fixpoint splitlines_go (s cur : string) : list string :=
  match s with
  | EmptyString => if cur =? "" then [] else [rev_str cur]
  | String c s' =>
      if is_line_boundary c then
        rev_str cur ::
          (if Ascii.eqb c "013" then
             match s' with
             | String d s'' => if Ascii.eqb d "010" then splitlines_go s'' ""
                               else splitlines_go s' ""
             | EmptyString => []
             end
           else splitlines_go s' "")
      else splitlines_go s' (String c cur)
  end.

Definition splitlines (s : string) : list string := splitlines_go s "".

(** [ignore_patterns.add(line)] on a set held as a list without repetition. *)
Definition set_add (s : list string) (x : string) : list string :=
  if existsb (String.eqb x) s then s else (s ++ [x])%list.

(** [ignore_patterns], built from the text of [.gitignore]. *)
Definition ignore_patterns_of (gitignore_content : string) : list string :=
  if gitignore_content =? "" then []
  else fold_left (fun acc raw =>
                    let line := strip raw in
                    if negb (line =? "") && negb (startswith line "#")
                    then set_add acc line else acc)
                 (splitlines gitignore_content) [].

End Gitignore.

(** ** The file loop (step 4 of [analyze_repository]) *)
Module FileLoop.
Import PathFilter Analyzer.

Definition max_files : nat := 50.

Definition text_extensions : list string := ["txt"; "md"; "yml"; "yaml"; "json"; "xml"].

(** [file_obj.content = content] *)
Definition set_content (f : file) (c : string) : file :=
  mk_file (path f) (name f) (extension f) (size f) c (language f)
          (line_count f) (function_count f) (class_count f) (complexity_score f).

(** [if len(files_to_analyze) > max_files: files_to_analyze = files_to_analyze[:max_files]] *)
Definition cap_files (items : list tree_item) : list tree_item :=
  if (max_files <? List.length items)%nat then firstn max_files items else items.

Section Loop.

Variable ast_parse : string -> option py_module.
Variable js_regex_counts : string -> nat * nat.
Variable fetch_file_content : string -> string.

(** The body of [for i, item in enumerate(files_to_analyze)]; the extension
    is [Path(file_name).suffix.lower().lstrip('.')]. *)
Definition analyze_item (item : tree_item) : file :=
  let file_path := item_path item in
  let file_name := file_name_of file_path in
  let ext := lstrip_by (Ascii.eqb ".") (extension_of file_name) in
  let file_obj := new_file file_path file_name ext (item_size item) "" in
  if negb (language file_obj =? "Unknown") || existsb (String.eqb ext) text_extensions then
    let content := fetch_file_content file_path in
    let file_obj := set_content file_obj content in
    if content =? "" then file_obj else analyze_file ast_parse js_regex_counts file_obj
  else file_obj.

(** [repo.files] after the loop. *)
Definition analyzed_files (patterns : list string) (tree : list tree_item) : list file :=
  map analyze_item (cap_files (files_to_analyze patterns tree)).

End Loop.

End FileLoop.

(** ** The orchestrator ([GitHubCodebaseAnalyzer.analyze_repository]) *)
Module Pipeline.
Import PathFilter Analyzer Deps Tech.

(** The fields of [Repository] that the analysis fills in. *)
Record repository := mk_repository {
  readme_content : string;
  files : list file;
  dependencies : list dep;
  technologies : list technology;
  analysis_complete : bool
}.

Section Run.

(** [fetch_repository_info] returned no ["error"] key. *)
Variable info_ok : bool.
Variable fetch_file_content : string -> string.
Variable tree_request : string -> option (option (list tree_item)).
Variable ast_parse : string -> option py_module.
Variable js_regex_counts : string -> nat * nat.
Variable json_loads : string -> result pyobj.
Variable findall_count : string -> string -> nat.
(** Step 7, [generate_all_documentation], writes files and reads the
    repository; [false] when it raises (the exception leaves
    [analyze_repository]). *)
Variable documentation_ok : bool.

(** [None] when the call raises. *)
Definition analyze_repository : option repository :=
  let repo := mk_repository "" [] [] [] false in
  if negb info_ok then Some repo
  else
    let readme := Client.fetch_readme fetch_file_content in
    let ignore_patterns := Gitignore.ignore_patterns_of (fetch_file_content ".gitignore") in
    match Client.fetch_repository_tree tree_request "main" with
    | [] => Some (mk_repository readme [] [] [] false)
    | file_tree =>
        let fs := FileLoop.analyzed_files ast_parse js_regex_counts fetch_file_content
                    ignore_patterns file_tree in
        let deps := analyze_dependencies json_loads fetch_file_content in
        let techs := detect_technologies findall_count fs deps in
        if documentation_ok then Some (mk_repository readme fs deps techs true)
        else None
  end.

End Run.

End Pipeline.

(** ** Metrics of the generated documents ([DocumentationGenerator]) *)
Module Docs.
Import Analyzer.

(** [total_files] of [generate_readme] *)
Definition readme_total_files (files : list file) : nat :=
  List.length (filter (fun f => negb (existsb (String.eqb (extension f)) ["png"; "jpg"; "gif"; "ico"]))
                      files).

(** [total_loc] of [generate_readme] *)
Definition total_loc (files : list file) : nat := list_sum (map line_count files).

(** [directories] of [generate_architecture_documentation]: the first path
    segment of every path holding a [/]. *)
Definition top_directories (files : list file) : list string :=
  fold_left (fun acc f =>
               if contains (path f) "/" then Gitignore.set_add acc (hd "" (split "/" (path f)))
               else acc) files [].

(** [files_in_dir] of [generate_architecture_documentation] *)
Definition files_in_dir (files : list file) (directory : string) : list file :=
  filter (fun f => startswith (path f) (directory ++ "/")) files.

(** [lang_stats[lang]["files"] += 1; lang_stats[lang]["lines"] += line_count] *)
Fixpoint stats_add (d : list (string * (nat * nat))) (lang : string) (lines : nat)
  : list (string * (nat * nat)) :=
  match d with
  | [] => [(lang, (1, lines))]
  | (k, (fc, lc)) :: d' =>
      if k =? lang then (k, (S fc, (lc + lines)%nat)) :: d'
      else (k, (fc, lc)) :: stats_add d' lang lines
  end.

(** [lang_stats] of [generate_architecture_documentation], before sorting. *)
Definition lang_stats (files : list file) : list (string * (nat * nat)) :=
  fold_left (fun acc f => stats_add acc (language f) (line_count f)) files [].

End Docs.

(** ** PlantUML text encoding ([_generate_uml_images]) *)
Module PlantUML.

Definition alphabet : string :=
  "0123456789ABCDEFGHIJKLMNOPQRSTUVWXYZabcdefghijklmnopqrstuvwxyz-_".

(** [alphabet[i]]; every index below is masked into [0, 63]. *)
Definition alphabet_at (i : Z) : string :=
  match get (Z.to_nat i) alphabet with
  | Some c => String c EmptyString
  | None => EmptyString
  end.

(** The four characters of one three-byte chunk. *)
Definition encode_chunk (b1 b2 b3 : Z) : string :=
  alphabet_at (Z.land (Z.shiftr b1 2) 63) ++
  alphabet_at (Z.lor (Z.shiftl (Z.land b1 3) 4) (Z.land (Z.shiftr b2 4) 15)) ++
  alphabet_at (Z.lor (Z.shiftl (Z.land b2 15) 2) (Z.land (Z.shiftr b3 6) 3)) ++
  alphabet_at (Z.land b3 63).

(** [encode_base64]: chunks [data[i:i+3]], a short last chunk padded with
    zero bytes. *)
Fixpoint encode_base64 (data : list Z) : string :=
  match data with
  | [] => ""
  | [b1] => encode_chunk b1 0 0
  | [b1; b2] => encode_chunk b1 b2 0
  | b1 :: b2 :: b3 :: rest => encode_chunk b1 b2 b3 ++ encode_base64 rest
  end.

Definition newline : string := String "010" EmptyString.

(** [sep.join(lines)] *)
Fixpoint join (sep : string) (lines : list string) : string :=
  match lines with
  | [] => ""
  | [x] => x
  | x :: xs => x ++ sep ++ join sep xs
  end.

(** [lines[1:-1]] *)
Definition inner_lines (lines : list string) : list string :=
  firstn (List.length lines - 2) (skipn 1 lines).

(** The text [encode_plantuml] compresses: stripped, and without its first
    and last line when it starts with [@startuml]. *)
Definition plantuml_source (plantuml_text : string) : string :=
  let t := strip plantuml_text in
  if startswith t "@startuml" then join newline (inner_lines (split "010" t)) else t.

Section Encode.
(** [zlib.compress(text.encode('utf-8'))] *)
Variable zlib_compress : string -> list Z.

(** [encode_plantuml] *)
Definition encode_plantuml (plantuml_text : string) : string :=
  encode_base64 (zlib_compress (plantuml_source plantuml_text)).
End Encode.

End PlantUML.

(** ** Auxiliary definitions for the properties of the added code *)
Module ExtraAux.

(** A line the requirements parser turns into a record. *)
Definition requirement_line (raw : string) : bool :=
  let line := strip raw in negb (line =? "") && negb (startswith line "#").

(** [c] occurs in [s]. *)
Definition has_char (c : ascii) (s : string) : bool :=
  existsb (Ascii.eqb c) (list_ascii_of_string s).

(** Inverse of the PlantUML alphabet: the index of a character. *)
Fixpoint index_of (c : ascii) (s : string) (i : Z) : Z :=
  match s with
  | EmptyString => i
  | String d s' => if Ascii.eqb c d then i else index_of c s' (i + 1)
  end.

Definition sextet (c : ascii) : Z := index_of c PlantUML.alphabet 0.

(** A decoder for [encode_base64]: four characters back to three bytes. *)
Fixpoint decode_base64 (s : string) : list Z :=
  match s with
  | String c1 (String c2 (String c3 (String c4 rest))) =>
      let s1 := sextet c1 in let s2 := sextet c2 in
      let s3 := sextet c3 in let s4 := sextet c4 in
      (s1 * 4 + s2 / 16)%Z :: ((s2 mod 16) * 16 + s3 / 4)%Z ::
        ((s3 mod 4) * 64 + s4)%Z :: decode_base64 rest
  | _ => []
  end.

(** The integers [0 .. n-1]. *)
Definition zrange (n : nat) : list Z := map Z.of_nat (seq 0 n).

End ExtraAux.


(** * Properties *)

(** ** Path filter *)
Module PathFilterFacts.
Import PathFilter.

Lemma ignore_scan_hit : forall patterns p file_path file_name,
  In p patterns -> pattern_matches p file_path file_name = true ->
  fst (ignore_scan patterns file_path file_name) = true.
Proof.
  induction patterns as [|p0 ps IH]; intros p fp fn Hin Hm; [destruct Hin|].
  simpl. destruct (pattern_matches p0 fp fn) eqn:E; [reflexivity|].
  destruct Hin as [<-|Hin]; [congruence|].
  specialize (IH p fp fn Hin Hm).
  destruct (ignore_scan ps fp fn); exact IH.
Qed.

Lemma decision_trace_shape : forall patterns item,
  item_type item = "blob" ->
  let fp := item_path item in
  let fn := file_name_of fp in
  should_analyze_trace patterns item =
  let (ignored, tr) := ignore_scan patterns fp fn in
  if ignored then (false, tr)
  else if (item_size item <? max_file_size)%Z
  then (negb (is_excluded (extension_of fn)), (tr ++ [SizeCheck; ExtensionCheck])%list)
  else (false, (tr ++ [SizeCheck])%list).
Proof.
  intros patterns item Hb. unfold should_analyze_trace. rewrite Hb. reflexivity.
Qed.

(** C1 (the boundary): a blob of exactly 100,000 bytes, with an ordinary
    extension and no ignore pattern, is rejected; one of 99,999 bytes is
    accepted.  The size test is [item["size"] < 100000]. *)
Theorem size_ceiling_boundary :
  should_analyze [] (mk_item "data.json" "blob" 100000) = false /\
  should_analyze [] (mk_item "data.json" "blob" 99999) = true.
Proof. split; vm_compute; reflexivity. Qed.

(** C9 (counterexample): for a denylisted, oversized blob the ignore
    patterns are evaluated: the loop over them runs before the size and
    extension tests. *)
Lemma denylisted_oversized_consults_patterns :
  In (IgnorePattern "build/")
     (snd (should_analyze_trace ["build/"] (mk_item "logo.png" "blob" 200000))) /\
  should_analyze ["build/"] (mk_item "logo.png" "blob" 200000) = false.
Proof. vm_compute. auto. Qed.

(** C9 (amended): a blob whose extension is in the denylist and whose size
    exceeds 100,000 bytes is rejected whatever the ignore patterns are, so
    its decision is the same under every pattern set; the checks evaluated
    are the pattern scan followed at most by the size test (the extension
    test is never reached). *)
Theorem denylisted_oversized_rejected : forall patterns patterns' item,
  item_type item = "blob" ->
  is_excluded (extension_of (file_name_of (item_path item))) = true ->
  (item_size item > max_file_size)%Z ->
  should_analyze patterns item = false /\
  should_analyze patterns item = should_analyze patterns' item /\
  (snd (should_analyze_trace patterns item) =
     snd (ignore_scan patterns (item_path item) (file_name_of (item_path item))) \/
   snd (should_analyze_trace patterns item) =
     (snd (ignore_scan patterns (item_path item) (file_name_of (item_path item)))
        ++ [SizeCheck])%list).
Proof.
  intros patterns patterns' item Hb _ Hsz.
  assert (Hlt : (item_size item <? max_file_size)%Z = false) by (apply Z.ltb_ge; lia).
  assert (Hrej : forall ps, should_analyze_trace ps item =
     let (ignored, tr) := ignore_scan ps (item_path item) (file_name_of (item_path item)) in
     if ignored then (false, tr) else (false, (tr ++ [SizeCheck])%list)).
  { intro ps. rewrite decision_trace_shape by exact Hb. simpl. rewrite Hlt.
    destruct (ignore_scan ps _ _) as [[|] tr]; reflexivity. }
  unfold should_analyze. rewrite !Hrej.
  destruct (ignore_scan patterns _ _) as [[|] tr];
  destruct (ignore_scan patterns' _ _) as [[|] tr']; simpl; auto.
Qed.

Lemma denylisted_oversized_rejected_witness :
  item_type (mk_item "logo.png" "blob" 200000) = "blob" /\
  is_excluded (extension_of (file_name_of "logo.png")) = true /\
  (200000 > max_file_size)%Z /\
  should_analyze ["build/"] (mk_item "logo.png" "blob" 200000) = false.
Proof.
  refine (conj eq_refl (conj eq_refl (conj _ _))).
  - unfold max_file_size. lia.
  - apply (denylisted_oversized_rejected ["build/"] [] (mk_item "logo.png" "blob" 200000));
      [reflexivity | reflexivity | unfold max_file_size; simpl; lia].
Defined.

(** C10: a pattern ending in [/] excludes every blob whose path starts with
    the pattern without its trailing slashes; there is no check that a path
    segment ends there, so [dist/] also excludes [distribution/file.js] and
    [distfile.txt]. *)
Theorem dir_pattern_is_raw_prefix : forall patterns p item,
  In p patterns ->
  endswith p "/" = true ->
  startswith (item_path item) (rstrip_by (Ascii.eqb "/") p) = true ->
  should_analyze patterns item = false.
Proof.
  intros patterns p item Hin Hend Hpre.
  unfold should_analyze, should_analyze_trace.
  destruct (item_type item =? "blob"); [|reflexivity].
  assert (Hm : pattern_matches p (item_path item) (file_name_of (item_path item)) = true).
  { unfold pattern_matches. rewrite Hend, Hpre. reflexivity. }
  pose proof (ignore_scan_hit patterns p _ _ Hin Hm) as Hi.
  destruct (ignore_scan patterns _ _) as [ign tr]. simpl in Hi. subst ign. reflexivity.
Qed.

Lemma dir_pattern_is_raw_prefix_witness :
  In "dist/" ["dist/"] /\ endswith "dist/" "/" = true /\
  startswith "distribution/file.js" (rstrip_by (Ascii.eqb "/") "dist/") = true /\
  should_analyze ["dist/"] (mk_item "distribution/file.js" "blob" 10) = false /\
  should_analyze ["dist/"] (mk_item "distfile.txt" "blob" 10) = false.
Proof.
  refine (conj (or_introl eq_refl) (conj eq_refl (conj eq_refl (conj _ _)))).
  - apply (dir_pattern_is_raw_prefix ["dist/"] "dist/" (mk_item "distribution/file.js" "blob" 10));
      [left; reflexivity | reflexivity | reflexivity].
  - apply (dir_pattern_is_raw_prefix ["dist/"] "dist/" (mk_item "distfile.txt" "blob" 10));
      [left; reflexivity | reflexivity | reflexivity].
Defined.

End PathFilterFacts.

(** ** Code analyzer *)
Module AnalyzerFacts.
Import Analyzer Reference.

(** C2: a module holding one [async def] parses to a tree with one
    function definition, yet the walk counts only [ast.FunctionDef] nodes
    and reports zero functions. *)
Theorem async_def_not_counted :
  function_count
    (analyze_file parse_async_source (fun _ => (0, 0)%nat)
                  (new_file "client.py" "client.py" "py" 40 async_source)) = 0%nat /\
  defined_functions async_tree = 1%nat.
Proof. vm_compute. split; reflexivity. Qed.

Lemma analyze_python_code_content : forall ap f,
  content (analyze_python_code ap f) = content f.
Proof.
  intros ap f. unfold analyze_python_code.
  destruct (ap (content f)) as [m|]; [destruct (module_counts m)|]; reflexivity.
Qed.

Lemma analyze_javascript_code_content : forall jc f,
  content (analyze_javascript_code jc f) = content f.
Proof.
  intros jc f. unfold analyze_javascript_code. destruct (jc (content f)); reflexivity.
Qed.

Lemma calculate_complexity_closed : forall c,
  calculate_complexity c = complexity_formula c.
Proof.
  intro c. unfold calculate_complexity, complexity_formula, control_structures.
  generalize (count (lower c)) as k. generalize (List.length (split "010" c)) as n.
  intros n k. cbn [fold_left map]. unfold list_sum. cbn [fold_right]. lia.
Qed.

(** C8 (counterexample): empty content keeps the initial score 0.0, while
    the formula gives 0.1 for its single (empty) line. *)
Lemma empty_content_scores_zero :
  complexity_score
    (analyze_file (fun _ => None) (fun _ => (0, 0)%nat)
                  (new_file "empty.py" "empty.py" "py" 0 "")) = 0%Z /\
  complexity_formula "" = 1%Z.
Proof. vm_compute. split; reflexivity. Qed.

(** C8 (amended): for every non-empty content, [complexity_score] is
    [0.1 * line_count + 0.5 * (occurrences of if, for, while, switch, case,
    try, catch in the lower-cased text)], in tenths; a 1,000-line file with
    five [if], three [for] and none of the others scores 104.0; a file with
    empty content keeps its score, which is 0.0 for every [File] built with
    empty content. *)
Theorem complexity_of_nonempty : forall ast_parse js_counts f,
  (content f <> "" ->
   complexity_score (analyze_file ast_parse js_counts f) = complexity_formula (content f) /\
   (List.length (split "010" (content f)) = 1000%nat ->
    map (count (lower (content f))) control_structures = [5; 3; 0; 0; 0; 0; 0]%nat ->
    complexity_score (analyze_file ast_parse js_counts f) = 1040%Z)) /\
  (content f = "" ->
   complexity_score (analyze_file ast_parse js_counts f) = complexity_score f) /\
  (forall p n e sz,
   complexity_score (analyze_file ast_parse js_counts (new_file p n e sz "")) = 0%Z).
Proof.
  intros ap jc f. split; [|split].
  - intro Hne.
    assert (Hs : complexity_score (analyze_file ap jc f) = complexity_formula (content f)).
    { unfold analyze_file.
      destruct (content f =? "") eqn:E; [apply String.eqb_eq in E; contradiction|].
      simpl. rewrite calculate_complexity_closed. f_equal.
      destruct (language _ =? "Python");
        [rewrite analyze_python_code_content; reflexivity|].
      destruct (_ || _); [rewrite analyze_javascript_code_content; reflexivity|].
      reflexivity. }
    split; [exact Hs|].
    intros Hl Hk. rewrite Hs. unfold complexity_formula. rewrite Hl, Hk. reflexivity.
  - intro He. unfold analyze_file. rewrite He. reflexivity.
  - intros p n e sz. reflexivity.
Qed.

Lemma complexity_of_nonempty_witness :
  content (new_file "loop.js" "loop.js" "js" 1026 thousand_lines) <> "" /\
  List.length (split "010" thousand_lines) = 1000%nat /\
  map (count (lower thousand_lines)) control_structures = [5; 3; 0; 0; 0; 0; 0]%nat /\
  complexity_score (analyze_file (fun _ => None) (fun _ => (0, 0)%nat)
                    (new_file "loop.js" "loop.js" "js" 1026 thousand_lines)) = 1040%Z /\
  complexity_score (analyze_file (fun _ => None) (fun _ => (0, 0)%nat)
                    (new_file "empty.py" "empty.py" "py" 0 "")) =
  complexity_score (new_file "empty.py" "empty.py" "py" 0 "").
Proof.
  assert (Hne : content (new_file "loop.js" "loop.js" "js" 1026 thousand_lines) <> "")
    by discriminate.
  assert (Hl : List.length (split "010" thousand_lines) = 1000%nat) by (vm_compute; reflexivity).
  assert (Hk : map (count (lower thousand_lines)) control_structures = [5; 3; 0; 0; 0; 0; 0]%nat)
    by (vm_compute; reflexivity).
  assert (He : content (new_file "empty.py" "empty.py" "py" 0 "") = "") by reflexivity.
  refine (conj Hne (conj Hl (conj Hk (conj _ _)))).
  - exact (proj2 (proj1 (complexity_of_nonempty (fun _ => None) (fun _ => (0, 0)%nat)
                    (new_file "loop.js" "loop.js" "js" 1026 thousand_lines)) Hne) Hl Hk).
  - exact (proj1 (proj2 (complexity_of_nonempty (fun _ => None) (fun _ => (0, 0)%nat)
                    (new_file "empty.py" "empty.py" "py" 0 ""))) He).
Defined.

End AnalyzerFacts.

(** ** Manifest parsers on sample inputs *)
Module ParserSamples.
Import Deps Reference.

(** C3: in a [packages] section, [requests = ">=2.0"] gets the version
    [>]: the code takes [line.split('=')[1]], the text between the first and
    the second [=], not the whole right-hand side [>=2.0]. *)
Theorem pipfile_version_cut_at_second_eq :
  parse_pipfile_dependencies pipfile_sample =
    Ok [mk_dep "requests" (PStr ">") "pipenv" false].
Proof. vm_compute. reflexivity. Qed.

(** C7: the spec's scenario holds, but on [a==1.0a1] the version is
    [==1.01]: [line.replace(name_version, '')] deletes every occurrence of
    the name, including the one inside the version. *)
Theorem pip_version_replace_all :
  parse_pip_dependencies pip_sample =
    Ok [mk_dep "flask" (PStr ">=2.0") "pip" false;
        mk_dep "requests" (PStr "*") "pip" false] /\
  parse_pip_dependencies "a==1.0a1" = Ok [mk_dep "a" (PStr "==1.01") "pip" false] /\
  requirement_split "a==1.0a1" = ("a", "==1.0a1").
Proof. vm_compute. repeat split; reflexivity. Qed.

End ParserSamples.

(** ** Which manifest parsers raise *)
Module ParserTotality.
Import Deps Reference.

Lemma split_cons : forall sep s, exists x xs, split sep s = x :: xs.
Proof.
  intros sep s. induction s as [|c s IH]; simpl; [eauto|].
  destruct (Ascii.eqb c sep); [eauto|].
  destruct IH as [x [xs ->]]. eauto.
Qed.

Lemma split_two_when_contains : forall sep s,
  contains s (String sep EmptyString) = true ->
  exists a b rest, split sep s = a :: b :: rest.
Proof.
  intros sep s. induction s as [|c s IH]; intro H; [discriminate|].
  simpl in H |- *. apply orb_true_iff in H.
  destruct (Ascii.eqb c sep) eqn:E.
  - destruct (split_cons sep s) as [x [xs ->]]. eauto.
  - destruct H as [H|H].
    + rewrite Ascii.eqb_sym, E in H. discriminate.
    + destruct (IH H) as [a [b [rest ->]]]. eauto.
Qed.

Lemma re_split_ops_cons : forall s, exists x xs, re_split_ops s = x :: xs.
Proof.
  induction s as [|c s IH]; simpl; [eauto|].
  destruct (is_req_op c); [eauto|].
  destruct IH as [x [xs ->]]. eauto.
Qed.

Lemma name_and_version_ok : forall line,
  contains line "=" = true -> exists n v, name_and_version line = Ok (n, v).
Proof.
  intros line H. destruct (split_two_when_contains "=" line H) as [a [b [rest E]]].
  unfold name_and_version. rewrite E. simpl. eauto.
Qed.

Lemma parse_pip_line_ok : forall l, is_ok (parse_pip_line l) = true.
Proof.
  intro l. unfold parse_pip_line.
  destruct (_ || _); [reflexivity|].
  destruct (re_split_ops_cons (strip l)) as [x [xs ->]]. reflexivity.
Qed.

Lemma parse_pip_lines_ok : forall ls, is_ok (parse_pip_lines ls) = true.
Proof.
  induction ls as [|l ls IH]; [reflexivity|]. simpl.
  pose proof (parse_pip_line_ok l) as H.
  destruct (parse_pip_line l); [|discriminate]. simpl.
  destruct (parse_pip_lines ls); [reflexivity|discriminate].
Qed.

Lemma pipfile_go_ok : forall ls sec, is_ok (pipfile_go sec ls) = true.
Proof.
  induction ls as [|l ls IH]; intro sec; [reflexivity|]. simpl.
  destruct (_ && endswith _ _); [apply IH|].
  destruct (contains (strip l) "=") eqn:Hc; simpl; [|apply IH].
  destruct (_ || _); [|apply IH].
  destruct (name_and_version_ok _ Hc) as [n [v ->]]. simpl.
  specialize (IH sec). destruct (pipfile_go sec ls); [reflexivity|discriminate].
Qed.

Lemma cargo_go_ok : forall ls b, is_ok (cargo_go b ls) = true.
Proof.
  induction ls as [|l ls IH]; intro b; [reflexivity|]. simpl.
  destruct (_ =? "[dependencies]"); [apply IH|].
  destruct (_ && _); [apply IH|].
  destruct b; simpl; [|apply IH].
  destruct (contains (strip l) "=") eqn:Hc; [|apply IH].
  destruct (name_and_version_ok _ Hc) as [n [v ->]]. simpl.
  specialize (IH true). destruct (cargo_go true ls); [reflexivity|discriminate].
Qed.

Lemma parse_go_line_ok : forall l, is_ok (parse_go_line l) = true.
Proof.
  intro l. unfold parse_go_line.
  destruct (_ || _); [|reflexivity].
  destruct (split_ws _) as [|x [|y rest]]; reflexivity.
Qed.

Lemma parse_go_lines_ok : forall ls, is_ok (parse_go_lines ls) = true.
Proof.
  induction ls as [|l ls IH]; [reflexivity|]. simpl.
  pose proof (parse_go_line_ok l) as H.
  destruct (parse_go_line l); [|discriminate]. simpl.
  destruct (parse_go_lines ls); [reflexivity|discriminate].
Qed.

Lemma collect_deps_ext : forall ms fetch fetch',
  (forall n, In n (map fst ms) -> fetch n = fetch' n) ->
  collect_deps fetch ms = collect_deps fetch' ms.
Proof.
  induction ms as [|[n p] ms IH]; intros fetch fetch' H; [reflexivity|]. simpl.
  rewrite (H n (or_introl eq_refl)).
  rewrite (IH fetch fetch') by (intros m Hm; apply H; right; exact Hm). reflexivity.
Qed.

Lemma collect_deps_raise_absent : forall ms fetch fname parser,
  NoDup (map fst ms) -> In (fname, parser) ms ->
  (exists e, parser (fetch fname) = Raise e) ->
  collect_deps fetch ms = collect_deps (fun n => if n =? fname then "" else fetch n) ms.
Proof.
  induction ms as [|[n p] ms IH]; intros fetch fname parser Hnd Hin [e He]; [destruct Hin|].
  inversion Hnd as [|? ? Hnin Hnd']; subst. simpl in Hin |- *.
  destruct Hin as [Heq|Hin].
  - injection Heq as -> ->. rewrite String.eqb_refl, He. simpl.
    destruct (fetch fname =? ""); simpl;
      (apply collect_deps_ext; intros m Hm; destruct (String.eqb_spec m fname);
       [subst; contradiction | reflexivity]).
  - assert (Hne : n <> fname)
      by (intro; subst; apply Hnin; apply (in_map fst) in Hin; exact Hin).
    rewrite (proj2 (String.eqb_neq n fname) Hne).
    rewrite <- (IH fetch fname parser Hnd' Hin (ex_intro _ e He)). reflexivity.
Qed.

Lemma manifest_names_nodup : forall json_loads, NoDup (map fst (package_managers json_loads)).
Proof.
  intro jl. cbn [map fst package_managers].
  repeat constructor; cbn [In]; intuition discriminate.
Qed.

Lemma pipfile_go_skip_section : forall pre rest sec,
  sec <> "packages" -> sec <> "dev-packages" ->
  Forall (fun l => (startswith (strip l) "[" && endswith (strip l) "]") = false) pre ->
  pipfile_go sec (pre ++ rest) = pipfile_go sec rest.
Proof.
  induction pre as [|l pre IH]; intros rest sec H1 H2 Hf; [reflexivity|].
  inversion Hf as [|? ? Hl Hrest]; subst. simpl. rewrite Hl.
  replace ((sec =? "packages") || (sec =? "dev-packages")) with false.
  - rewrite andb_false_r. apply IH; assumption.
  - symmetry. apply orb_false_iff. split; apply String.eqb_neq; assumption.
Qed.

Lemma pipfile_go_ignore_line : forall pre l post sec,
  (startswith (strip l) "[" && endswith (strip l) "]") = false ->
  contains (strip l) "=" = false ->
  pipfile_go sec (pre ++ l :: post) = pipfile_go sec (pre ++ post).
Proof.
  induction pre as [|l0 pre IH]; intros l post sec H1 H2.
  - simpl. rewrite H1, H2. reflexivity.
  - simpl. destruct (startswith (strip l0) "[" && endswith (strip l0) "]");
      [apply IH; assumption|].
    destruct (contains (strip l0) "=" && _); [|apply IH; assumption].
    rewrite IH by assumption. reflexivity.
Qed.

Lemma cargo_go_skip_outside : forall pre rest,
  Forall (fun l => strip l <> "[dependencies]") pre ->
  cargo_go false (pre ++ rest) = cargo_go false rest.
Proof.
  induction pre as [|l pre IH]; intros rest Hf; [reflexivity|].
  inversion Hf as [|? ? Hl Hrest]; subst. simpl.
  apply String.eqb_neq in Hl. rewrite Hl.
  destruct (_ && _); apply IH; assumption.
Qed.

Lemma cargo_go_header_closes : forall h rest b,
  startswith (strip h) "[" = true -> strip h <> "[dependencies]" ->
  cargo_go b (h :: rest) = cargo_go false rest.
Proof.
  intros h rest b H1 H2. simpl. apply String.eqb_neq in H2. rewrite H2, H1. reflexivity.
Qed.

Lemma cargo_go_ignore_line : forall pre l post b,
  startswith (strip l) "[" = false -> contains (strip l) "=" = false ->
  cargo_go b (pre ++ l :: post) = cargo_go b (pre ++ post).
Proof.
  induction pre as [|l0 pre IH]; intros l post b H1 H2.
  - simpl. destruct (String.eqb_spec (strip l) "[dependencies]") as [E|_].
    + rewrite E in H1. discriminate.
    + rewrite H1, H2, andb_false_r. reflexivity.
  - simpl. destruct (strip l0 =? "[dependencies]"); [apply IH; assumption|].
    destruct (startswith (strip l0) "[" && _); [apply IH; assumption|].
    destruct (b && contains (strip l0) "="); [|apply IH; assumption].
    rewrite IH by assumption. reflexivity.
Qed.

Lemma parse_pip_lines_ignore_line : forall pre l post,
  ((strip l =? "") || startswith (strip l) "#") = true ->
  parse_pip_lines (pre ++ l :: post) = parse_pip_lines (pre ++ post).
Proof.
  induction pre as [|l0 pre IH]; intros l post H.
  - simpl. unfold parse_pip_line at 1. rewrite H. simpl.
    destruct (parse_pip_lines post); reflexivity.
  - simpl. rewrite IH by exact H. reflexivity.
Qed.

Lemma parse_go_lines_ignore_line : forall pre l post,
  (contains (strip l) "require" = false /\ contains (strip l) " v" = false) \/
  (List.length (split_ws (strip (replace (strip l) "require" ""))) < 2)%nat ->
  parse_go_lines (pre ++ l :: post) = parse_go_lines (pre ++ post).
Proof.
  induction pre as [|l0 pre IH]; intros l post H.
  - assert (Hl : parse_go_line l = Ok []).
    { unfold parse_go_line. destruct H as [[H1 H2]|H].
      - rewrite H1, H2. reflexivity.
      - destruct (_ || _); [|reflexivity].
        replace (2 <=? _)%nat with false by (symmetry; apply Nat.leb_gt; exact H).
        reflexivity. }
    simpl. rewrite Hl. simpl. destruct (parse_go_lines post); reflexivity.
  - simpl. rewrite IH by exact H. reflexivity.
Qed.

Lemma findall_artifacts_absent : forall fuel s,
  contains s "<groupId>" = false -> findall_artifacts fuel s = [].
Proof.
  induction fuel as [|fuel IH]; intros s H; [reflexivity|].
  assert (Hs : startswith s "<groupId>" = false)
    by (destruct s; cbn [contains] in H; apply orb_false_iff in H; tauto).
  simpl. unfold artifact_at, expect at 1. rewrite Hs. cbn [obind].
  destruct s as [|c s']; [reflexivity|].
  apply IH. cbn [contains] in H. apply orb_false_iff in H. tauto.
Qed.

Lemma maven_absent_no_record : forall c,
  contains c "<groupId>" = false -> parse_maven_dependencies c = Ok [].
Proof.
  intros c H. unfold parse_maven_dependencies. rewrite findall_artifacts_absent by exact H.
  reflexivity.
Qed.

(** C4 (counterexample): the npm and Composer parsers raise when a
    dependency key does not hold an object, as in the valid JSON documents
    [{"dependencies": ["react"]}] and [{"require": "php"}], and when the
    text is not JSON at all. *)
Lemma json_manifest_parsers_raise :
  npm_of_data (PDict [("dependencies", PList [PStr "react"])]) = Raise AttributeError /\
  composer_of_data (PDict [("require", PStr "php")]) = Raise AttributeError /\
  npm_of_data (PInt 5) = Raise TypeError /\
  parse_npm_dependencies (fun _ => Raise JSONDecodeError) "not json" = Raise JSONDecodeError.
Proof. vm_compute. repeat split; reflexivity. Qed.

(** C4 (amended): the requirements, Pipfile, Cargo, go.mod and Maven
    parsers return without raising on every text.  Lines that do not match
    a parser's format are ignored: removing a blank or comment line of a
    requirements file, a Pipfile or Cargo line that is no section header
    and has no [=], or a go.mod line with neither [require] nor [" v"] (or
    with fewer than two fields) leaves the result unchanged, and a pom.xml
    without [<groupId>] gives no record.  In a Pipfile the lines of a
    section other than [packages]/[dev-packages] give no record up to the
    next header; in Cargo.toml the lines before an exact [[dependencies]]
    header give no record, and every other header ends that section.  The
    npm and Composer parsers may raise; the registry loop then catches the
    exception, so that manifest adds what an empty one adds: nothing. *)
Theorem line_parsers_never_raise : forall c,
  is_ok (parse_pip_dependencies c) = true /\
  is_ok (parse_pipfile_dependencies c) = true /\
  is_ok (parse_cargo_dependencies c) = true /\
  is_ok (parse_go_dependencies c) = true /\
  is_ok (parse_maven_dependencies c) = true /\
  (forall pre l post,
     ((strip l =? "") || startswith (strip l) "#") = true ->
     parse_pip_lines (pre ++ l :: post) = parse_pip_lines (pre ++ post)) /\
  (forall sec pre l post,
     (startswith (strip l) "[" && endswith (strip l) "]") = false ->
     contains (strip l) "=" = false ->
     pipfile_go sec (pre ++ l :: post) = pipfile_go sec (pre ++ post)) /\
  (forall b pre l post,
     startswith (strip l) "[" = false -> contains (strip l) "=" = false ->
     cargo_go b (pre ++ l :: post) = cargo_go b (pre ++ post)) /\
  (forall pre l post,
     (contains (strip l) "require" = false /\ contains (strip l) " v" = false) \/
     (List.length (split_ws (strip (replace (strip l) "require" ""))) < 2)%nat ->
     parse_go_lines (pre ++ l :: post) = parse_go_lines (pre ++ post)) /\
  (contains c "<groupId>" = false -> parse_maven_dependencies c = Ok []) /\
  (forall sec pre rest, sec <> "packages" -> sec <> "dev-packages" ->
     Forall (fun l => (startswith (strip l) "[" && endswith (strip l) "]") = false) pre ->
     pipfile_go sec (pre ++ rest) = pipfile_go sec rest) /\
  (forall pre rest, Forall (fun l => strip l <> "[dependencies]") pre ->
     cargo_go false (pre ++ rest) = cargo_go false rest) /\
  (forall h rest b, startswith (strip h) "[" = true -> strip h <> "[dependencies]" ->
     cargo_go b (h :: rest) = cargo_go false rest) /\
  (forall json_loads fetch e,
     parse_npm_dependencies json_loads (fetch "package.json") = Raise e ->
     analyze_dependencies json_loads fetch =
     analyze_dependencies json_loads (fun n => if n =? "package.json" then "" else fetch n)) /\
  (forall json_loads fetch e,
     parse_composer_dependencies json_loads (fetch "composer.json") = Raise e ->
     analyze_dependencies json_loads fetch =
     analyze_dependencies json_loads (fun n => if n =? "composer.json" then "" else fetch n)).
Proof.
  intro c. repeat split.
  - apply parse_pip_lines_ok.
  - apply pipfile_go_ok.
  - apply cargo_go_ok.
  - apply parse_go_lines_ok.
  - intros pre l post. apply parse_pip_lines_ignore_line.
  - intros sec pre l post. apply pipfile_go_ignore_line.
  - intros b pre l post. apply cargo_go_ignore_line.
  - intros pre l post. apply parse_go_lines_ignore_line.
  - apply maven_absent_no_record.
  - intros sec pre rest. apply pipfile_go_skip_section.
  - apply cargo_go_skip_outside.
  - apply cargo_go_header_closes.
  - intros json_loads fetch e Hr. unfold analyze_dependencies.
    apply (collect_deps_raise_absent _ fetch "package.json" (parse_npm_dependencies json_loads));
      [apply manifest_names_nodup|left; reflexivity|exists e; exact Hr].
  - intros json_loads fetch e Hr. unfold analyze_dependencies.
    apply (collect_deps_raise_absent _ fetch "composer.json"
             (parse_composer_dependencies json_loads));
      [apply manifest_names_nodup|cbn; tauto|exists e; exact Hr].
Qed.

Lemma line_parsers_never_raise_witness :
  pipfile_go "source" (["url = https://pypi.org/simple"] ++ ["[packages]"; "flask = 2.0"]) =
    pipfile_go "source" ["[packages]"; "flask = 2.0"] /\
  cargo_go true ("[dev-dependencies]" :: ["tempfile = 3"]) = cargo_go false ["tempfile = 3"] /\
  cargo_go false ["tempfile = 3"] = Ok [] /\
  analyze_dependencies (fun _ => Raise JSONDecodeError)
    (fun n => if n =? "package.json" then "{broken" else "") =
  analyze_dependencies (fun _ => Raise JSONDecodeError)
    (fun n => if n =? "package.json" then "" else
              if n =? "package.json" then "{broken" else "").
Proof.
  pose proof (line_parsers_never_raise "") as Hc.
  destruct Hc as (_ & _ & _ & _ & _ & _ & _ & _ & _ & _ & Hsec & _ & Hhdr & Hnpm & _).
  split; [|split; [|split]].
  - apply Hsec; [discriminate|discriminate|].
    constructor; [vm_compute; reflexivity|constructor].
  - apply Hhdr; [vm_compute; reflexivity|discriminate].
  - vm_compute. reflexivity.
  - apply (Hnpm _ _ JSONDecodeError). reflexivity.
Defined.

End ParserTotality.

(** ** Technology detector *)
Module TechFacts.
Import Analyzer Deps Tech Reference TechAux.

Lemma py_max_Zmax : forall a b, py_max a b = Z.max a b.
Proof.
  intros a b. unfold py_max. destruct (Z.ltb_spec a b); lia.
Qed.

Lemma dict_get_set : forall k k' v d,
  dict_get k (dict_set k' v d) = if k' =? k then Some v else dict_get k d.
Proof.
  intros k k' v d. induction d as [|[k0 v0] d IH]; simpl; [reflexivity|].
  destruct (String.eqb_spec k0 k') as [->|Hne]; simpl.
  - destruct (k' =? k); reflexivity.
  - rewrite IH. destruct (String.eqb_spec k0 k) as [->|Hk]; [|reflexivity].
    destruct (String.eqb_spec k' k); [congruence|reflexivity].
Qed.

Lemma keys_set : forall k v d x,
  In x (map fst (dict_set k v d)) <-> k = x \/ In x (map fst d).
Proof.
  intros k v d x. induction d as [|[k0 v0] d IH]; simpl.
  - tauto.
  - destruct (String.eqb_spec k0 k) as [->|Hne]; simpl; rewrite ?IH; tauto.
Qed.

Lemma nodup_set : forall k v d,
  NoDup (map fst d) -> NoDup (map fst (dict_set k v d)).
Proof.
  intros k v d. induction d as [|[k0 v0] d IH]; intro Hd; simpl.
  - constructor; [intros []|constructor].
  - inversion Hd as [|? ? Hnin Hd']; subst.
    destruct (String.eqb_spec k0 k) as [->|Hne]; simpl.
    + constructor; assumption.
    + constructor; [|apply IH; assumption].
      rewrite keys_set. intros [H|H]; [congruence|contradiction].
Qed.

Lemma dict_get_updates : forall t l d0,
  dict_get t (fold_left update_max l d0) = fold_left omax (vals t l) (dict_get t d0).
Proof.
  intros t l. induction l as [|[k v] l IH]; intro d0; [reflexivity|].
  simpl. rewrite IH. unfold vals. simpl.
  unfold update_max. simpl. rewrite dict_get_set.
  destruct (String.eqb_spec k t) as [->|]; reflexivity.
Qed.

Lemma nodup_updates : forall l d0,
  NoDup (map fst d0) -> NoDup (map fst (fold_left update_max l d0)).
Proof.
  induction l as [|kv l IH]; intros d0 Hd; [exact Hd|].
  simpl. apply IH. apply nodup_set. exact Hd.
Qed.

Lemma dict_get_none : forall t d, ~ In t (map fst d) -> dict_get t d = None.
Proof.
  intros t d. induction d as [|[k v] d IH]; intro H; [reflexivity|].
  simpl in *. destruct (String.eqb_spec k t); [tauto|]. apply IH. tauto.
Qed.

Lemma vals_dict : forall t d,
  NoDup (map fst d) ->
  vals t d = match dict_get t d with Some v => [v] | None => [] end.
Proof.
  intros t d. induction d as [|[k v] d IH]; intro Hd; [reflexivity|].
  inversion Hd as [|? ? Hnin Hd']; subst. unfold vals in *. simpl.
  destruct (String.eqb_spec k t) as [->|Hne]; simpl.
  - rewrite IH by exact Hd'. rewrite dict_get_none by exact Hnin. reflexivity.
  - apply IH. exact Hd'.
Qed.

Lemma vals_app : forall t l1 l2, vals t (l1 ++ l2) = (vals t l1 ++ vals t l2)%list.
Proof. intros. unfold vals. rewrite filter_app, map_app. reflexivity. Qed.

Lemma vals_flat_map : forall {A} t (F : A -> list (string * Z)) xs,
  vals t (flat_map F xs) = flat_map (fun x => vals t (F x)) xs.
Proof.
  intros A t F xs. induction xs as [|x xs IH]; [reflexivity|].
  simpl. rewrite vals_app, IH. reflexivity.
Qed.

Lemma nodupb_NoDup : forall l, nodupb l = true -> NoDup l.
Proof.
  induction l as [|x xs IH]; intro H; [constructor|].
  simpl in H. apply andb_true_iff in H as [H1 H2].
  constructor; [|apply IH; exact H2].
  intro Hin. apply negb_true_iff in H1.
  assert (existsb (String.eqb x) xs = true)
    by (apply existsb_exists; exists x; split; [exact Hin | apply String.eqb_refl]).
  congruence.
Qed.

Lemma catalog_nodup : NoDup (map fst all_technologies).
Proof. apply nodupb_NoDup. vm_compute. reflexivity. Qed.

Lemma fold_categories : forall (step : dict -> string * list string -> dict)
  (cats : list (string * list (string * list string))) d0,
  fold_left (fun d '(_, techs) => fold_left step techs d) cats d0 =
  fold_left step (flat_map snd cats) d0.
Proof.
  intros step cats. induction cats as [|[c techs] cats IH]; intro d0; [reflexivity|].
  simpl. rewrite fold_left_app. apply IH.
Qed.

Lemma assoc_none : forall {A} t (l : list (string * A)),
  ~ In t (map fst l) -> assoc_str t l = None.
Proof.
  intros A t l. induction l as [|[k v] l IH]; intro H; [reflexivity|].
  simpl in *. destruct (String.eqb_spec t k); [subst; tauto|]. apply IH. tauto.
Qed.

Section CondSet.
(** A loop over the catalog that sets [d[name]] to [g patterns] when
    [f patterns] holds. *)
Variables (f : list string -> bool) (g : list string -> Z).
Variable step : dict -> string * list string -> dict.
Hypothesis step_eq : forall d tp,
  step d tp = if f (snd tp) then dict_set (fst tp) (g (snd tp)) d else d.

Lemma cond_set_get : forall techs d0 t,
  NoDup (map fst techs) ->
  dict_get t (fold_left step techs d0) =
  match assoc_str t techs with
  | Some ps => if f ps then Some (g ps) else dict_get t d0
  | None => dict_get t d0
  end.
Proof.
  induction techs as [|[n ps] techs IH]; intros d0 t Hnd; [reflexivity|].
  inversion Hnd as [|? ? Hnin Hnd']; subst. simpl.
  rewrite IH by exact Hnd'. rewrite step_eq. simpl.
  destruct (String.eqb_spec t n) as [->|Hne].
  - rewrite assoc_none by exact Hnin.
    destruct (f ps); [rewrite dict_get_set, String.eqb_refl|]; reflexivity.
  - destruct (f ps); [rewrite dict_get_set|];
      [destruct (String.eqb_spec n t); [congruence|] |];
      destruct (assoc_str t techs); reflexivity.
Qed.

Lemma cond_set_nodup : forall techs d0,
  NoDup (map fst d0) -> NoDup (map fst (fold_left step techs d0)).
Proof.
  induction techs as [|tp techs IH]; intros d0 Hd; [exact Hd|].
  simpl. apply IH. rewrite step_eq. destruct (f (snd tp)); [apply nodup_set|]; exact Hd.
Qed.

End CondSet.

Lemma file_dict_get : forall fc c t,
  dict_get t (analyze_file_content fc c) =
  match assoc_str t all_technologies with
  | Some ps => if (0 <? tech_confidence fc c ps)%Z then Some (tech_confidence fc c ps) else None
  | None => None
  end.
Proof.
  intros fc c t. unfold analyze_file_content. rewrite fold_categories.
  rewrite (cond_set_get (fun ps => 0 <? tech_confidence fc c ps)%Z (tech_confidence fc c))
    by (reflexivity || exact catalog_nodup).
  reflexivity.
Qed.

Lemma file_dict_nodup : forall fc c, NoDup (map fst (analyze_file_content fc c)).
Proof.
  intros fc c. unfold analyze_file_content. rewrite fold_categories.
  apply (cond_set_nodup (fun ps => 0 <? tech_confidence fc c ps)%Z (tech_confidence fc c));
    [reflexivity | constructor].
Qed.

Lemma dep_dict_get : forall n t,
  dict_get t (analyze_dependency n) =
  match assoc_str t all_technologies with
  | Some ps => if existsb (fun p => contains (lower n) (lower p)) ps then Some 8%Z else None
  | None => None
  end.
Proof.
  intros n t. unfold analyze_dependency. rewrite fold_categories.
  rewrite (cond_set_get (existsb (fun p => contains (lower n) (lower p))) (fun _ => 8%Z))
    by (reflexivity || exact catalog_nodup).
  reflexivity.
Qed.

Lemma dep_dict_nodup : forall n, NoDup (map fst (analyze_dependency n)).
Proof.
  intro n. unfold analyze_dependency. rewrite fold_categories.
  apply (cond_set_nodup (existsb (fun p => contains (lower n) (lower p))) (fun _ => 8%Z));
    [reflexivity | constructor].
Qed.

(** *** Maximum of a list of contributions *)

Lemma fr_nonneg : forall l, (0 <= fold_right Z.max 0 l)%Z.
Proof. induction l as [|x l IH]; simpl; lia. Qed.

Lemma fr_base : forall l a, (0 <= a)%Z ->
  fold_right Z.max a l = Z.max (fold_right Z.max 0%Z l) a.
Proof. induction l as [|x l IH]; intros a Ha; simpl; [lia|]. rewrite IH by exact Ha. lia. Qed.

Lemma fr_ge : forall l x, In x l -> (x <= fold_right Z.max 0 l)%Z.
Proof.
  induction l as [|y l IH]; intros x H; [destruct H|].
  destruct H as [->|H]; simpl; [lia|]. specialize (IH x H). lia.
Qed.

Lemma fr_le : forall l b, (0 <= b)%Z -> (forall x, In x l -> x <= b)%Z ->
  (fold_right Z.max 0 l <= b)%Z.
Proof.
  induction l as [|y l IH]; intros b Hb H; simpl; [lia|].
  assert (y <= b)%Z by (apply H; left; reflexivity).
  assert (fold_right Z.max 0 l <= b)%Z by (apply IH; [exact Hb | intros; apply H; right; assumption]).
  lia.
Qed.

Lemma fold_left_max : forall l a, fold_left Z.max l a = fold_right Z.max a l.
Proof. intros. apply fold_symmetric; [exact Z.max_assoc | intro; apply Z.max_comm]. Qed.

Lemma omax_some : forall vs a, fold_left omax vs (Some a) = Some (fold_left Z.max vs a).
Proof.
  induction vs as [|v vs IH]; intro a; [reflexivity|].
  simpl. unfold omax at 2. simpl. rewrite py_max_Zmax. apply IH.
Qed.

Lemma omax_none : forall vs, fold_left omax vs None = max_opt vs.
Proof.
  intros [|v vs]; [reflexivity|]. simpl. unfold omax at 2. simpl.
  rewrite omax_some, py_max_Zmax, fold_left_max, fr_base by lia.
  pose proof (fr_nonneg vs). f_equal. lia.
Qed.

Definition ocomb (a b : option Z) : option Z :=
  match a, b with
  | None, o | o, None => o
  | Some x, Some y => Some (Z.max x y)
  end.

Lemma max_opt_app : forall l1 l2, max_opt (l1 ++ l2) = ocomb (max_opt l1) (max_opt l2).
Proof.
  intros [|x l1] [|y l2]; simpl; try reflexivity.
  - rewrite app_nil_r. reflexivity.
  - f_equal. rewrite fold_right_app. simpl.
    rewrite (fr_base l1) by (pose proof (fr_nonneg l2); lia). lia.
Qed.

Lemma max_opt_app_ext : forall a a' b b',
  max_opt a = max_opt a' -> max_opt b = max_opt b' ->
  max_opt (a ++ b) = max_opt (a' ++ b').
Proof. intros a a' b b' H1 H2. rewrite !max_opt_app, H1, H2. reflexivity. Qed.

Lemma max_opt_flat_map_ext : forall {A} (F G : A -> list Z) xs,
  (forall x, In x xs -> max_opt (F x) = max_opt (G x)) ->
  max_opt (flat_map F xs) = max_opt (flat_map G xs).
Proof.
  intros A F G xs. induction xs as [|x xs IH]; intro H; [reflexivity|].
  simpl. apply max_opt_app_ext; [apply H; left; reflexivity|].
  apply IH. intros y Hy. apply H. right. exact Hy.
Qed.

Lemma max_opt_perm : forall l l', Permutation l l' -> max_opt l = max_opt l'.
Proof.
  intros l l' HP.
  assert (Hfr : fold_right Z.max 0%Z l = fold_right Z.max 0%Z l').
  { induction HP; simpl; lia. }
  destruct l as [|x l], l' as [|y l'].
  - reflexivity.
  - apply Permutation_nil in HP. discriminate.
  - apply Permutation_sym, Permutation_nil in HP. discriminate.
  - simpl. simpl in Hfr. rewrite Hfr. reflexivity.
Qed.

(** *** Per-file and per-dependency contributions *)

Lemma pattern_step_fold : forall fc c ps a,
  fold_left (pattern_step fc c) ps a =
  fold_left Z.max (flat_map (pattern_evidence fc c) ps) a.
Proof.
  intros fc c ps. induction ps as [|p ps IH]; intro a; [reflexivity|].
  simpl. rewrite fold_left_app, IH. f_equal.
  unfold pattern_step, pattern_evidence.
  destruct (negb _); [|reflexivity].
  destruct (0 <? fc p c)%nat; [|reflexivity]. simpl. apply py_max_Zmax.
Qed.

Lemma pattern_evidence_ge3 : forall fc c ps x,
  In x (flat_map (pattern_evidence fc c) ps) -> (3 <= x)%Z.
Proof.
  intros fc c ps x H. apply in_flat_map in H as [p [_ H]].
  unfold pattern_evidence in H.
  destruct (negb _); [|destruct H].
  destruct (Nat.ltb_spec 0 (fc p c)); [|destruct H].
  destruct H as [<-|[]]. lia.
Qed.

Lemma file_contribution : forall fc c ps,
  max_opt (if (0 <? tech_confidence fc c ps)%Z then [tech_confidence fc c ps] else []) =
  max_opt (flat_map (pattern_evidence fc c) ps).
Proof.
  intros fc c ps. unfold tech_confidence. rewrite pattern_step_fold, fold_left_max.
  pose proof (pattern_evidence_ge3 fc c ps) as Hge.
  destruct (flat_map (pattern_evidence fc c) ps) as [|x l] eqn:E; [reflexivity|].
  assert (Hx : (3 <= x)%Z) by (apply Hge; left; reflexivity).
  assert (Hm : (x <= fold_right Z.max 0 (x :: l))%Z) by (apply fr_ge; left; reflexivity).
  destruct (Z.ltb_spec 0 (fold_right Z.max 0 (x :: l)))%Z; [|lia].
  simpl. f_equal. lia.
Qed.

Lemma dep_contribution : forall (h : string -> bool) ps,
  max_opt (flat_map (fun p => if h p then [8%Z] else []) ps) =
  if existsb h ps then Some 8%Z else None.
Proof.
  intros h ps. induction ps as [|p ps IH]; [reflexivity|]. simpl.
  destruct (h p); simpl.
  - f_equal. destruct (flat_map _ ps) as [|y l] eqn:E; simpl; [lia|].
    destruct (existsb h ps); simpl in IH; inversion IH as [H]; rewrite H; lia.
  - exact IH.
Qed.

(** *** The detector's result *)

Lemma file_loop : forall fc files d0,
  fold_left (fun d f =>
    if content f =? "" then d
    else fold_left update_max (analyze_file_content fc (content f)) d) files d0 =
  fold_left update_max (file_updates fc files) d0.
Proof.
  intros fc files. induction files as [|f files IH]; intro d0; [reflexivity|].
  unfold file_updates. simpl. destruct (content f =? ""); simpl.
  - apply IH.
  - rewrite fold_left_app. apply IH.
Qed.

Lemma dep_loop : forall deps d0,
  fold_left (fun d dp => fold_left update_max (analyze_dependency (dep_name dp)) d) deps d0 =
  fold_left update_max (dep_updates deps) d0.
Proof.
  induction deps as [|dp deps IH]; intro d0; [reflexivity|].
  unfold dep_updates. simpl. rewrite fold_left_app. apply IH.
Qed.

Definition emitted (d : dict) : list technology :=
  flat_map (fun '(n, conf) =>
              if (1 <? conf)%Z then [mk_tech n (category_of n technology_patterns) conf]
              else []) d.

Lemma conf_of_emitted_absent : forall t d, ~ In t (map fst d) -> conf_of t (emitted d) = None.
Proof.
  intros t d. induction d as [|[n v] d IH]; intro H; [reflexivity|].
  simpl in H. unfold emitted. simpl.
  destruct (1 <? v)%Z; simpl; [|apply IH; tauto].
  destruct (String.eqb_spec n t); [tauto|]. apply IH. tauto.
Qed.

Lemma conf_of_emitted : forall t d,
  NoDup (map fst d) ->
  conf_of t (emitted d) =
  match dict_get t d with
  | Some v => if (1 <? v)%Z then Some v else None
  | None => None
  end.
Proof.
  intros t d. induction d as [|[n v] d IH]; intro Hnd; [reflexivity|].
  inversion Hnd as [|? ? Hnin Hnd']; subst.
  unfold emitted in *. simpl.
  destruct (String.eqb_spec n t) as [->|Hne].
  - destruct (1 <? v)%Z; simpl; [rewrite String.eqb_refl; reflexivity|].
    apply conf_of_emitted_absent. exact Hnin.
  - destruct (1 <? v)%Z; simpl;
      [destruct (String.eqb_spec n t); [congruence|] |]; apply IH; exact Hnd'.
Qed.

Lemma evidence_ge3 : forall fc t files deps x,
  In x (evidence fc t files deps) -> (3 <= x)%Z.
Proof.
  intros fc t files deps x H. unfold evidence in H. apply in_app_or in H as [H|H].
  - unfold content_evidence in H. apply in_flat_map in H as [f [_ H]].
    destruct (content f =? ""); [destruct H|]. eapply pattern_evidence_ge3. exact H.
  - unfold dependency_evidence in H. apply in_flat_map in H as [d [_ H]].
    apply in_flat_map in H as [p [_ H]].
    destruct (contains _ _); [|destruct H]. destruct H as [<-|[]]. lia.
Qed.

(** The confidence reported for [t] is the maximum of the evidence for [t],
    and nothing is reported without evidence. *)
Lemma conf_of_detect : forall fc files deps t,
  conf_of t (detect_technologies fc files deps) = max_opt (evidence fc t files deps).
Proof.
  intros fc files deps t. unfold detect_technologies.
  rewrite file_loop, dep_loop, <- fold_left_app.
  change (conf_of t (emitted (fold_left update_max
            (file_updates fc files ++ dep_updates deps) [])) =
          max_opt (evidence fc t files deps)).
  rewrite conf_of_emitted by (apply nodup_updates; constructor).
  rewrite dict_get_updates, omax_none.
  assert (Hm : max_opt (vals t (file_updates fc files ++ dep_updates deps)) =
               max_opt (evidence fc t files deps)).
  { rewrite vals_app. unfold file_updates, dep_updates, evidence.
    rewrite !vals_flat_map. apply max_opt_app_ext; apply max_opt_flat_map_ext; intros x _.
    - destruct (content x =? ""); [reflexivity|].
      rewrite vals_dict by apply file_dict_nodup. rewrite file_dict_get.
      unfold patterns_of. destruct (assoc_str t all_technologies) as [ps|]; [|reflexivity].
      rewrite <- file_contribution. destruct (0 <? tech_confidence fc (content x) ps)%Z; reflexivity.
    - rewrite vals_dict by apply dep_dict_nodup. rewrite dep_dict_get.
      unfold patterns_of. destruct (assoc_str t all_technologies) as [ps|]; [|reflexivity].
      rewrite dep_contribution. destruct (existsb _ ps); reflexivity. }
  rewrite Hm. pose proof (evidence_ge3 fc t files deps) as Hge.
  destruct (evidence fc t files deps) as [|x l]; [reflexivity|].
  assert (3 <= x)%Z by (apply Hge; left; reflexivity).
  assert (x <= fold_right Z.max 0 (x :: l))%Z by (apply fr_ge; left; reflexivity).
  change (max_opt (x :: l)) with (Some (fold_right Z.max 0%Z (x :: l))). cbv beta iota.
  destruct (Z.ltb_spec 1 (fold_right Z.max 0 (x :: l)))%Z; [reflexivity|lia].
Qed.

(** C5: the confidence reported for a technology is the maximum of all its
    contributions, from file contents ([min(m * 0.3, 1.0)] per matching
    pattern) and from dependency names (0.8 per matching pattern); when the
    contributions are 0.3 and 0.8 (each at least once, nothing else), the
    reported confidence is exactly 0.8. *)
Theorem confidence_is_max_of_evidence : forall findall_count files deps t,
  conf_of t (detect_technologies findall_count files deps) =
    max_opt (evidence findall_count t files deps) /\
  ((forall x, In x (evidence findall_count t files deps) -> x = 3%Z \/ x = 8%Z) ->
   In 3%Z (evidence findall_count t files deps) ->
   In 8%Z (evidence findall_count t files deps) ->
   conf_of t (detect_technologies findall_count files deps) = Some 8%Z).
Proof.
  intros fc files deps t. rewrite conf_of_detect. split; [reflexivity|].
  intros Hall _ H8.
  destruct (evidence fc t files deps) as [|x l] eqn:E; [destruct H8|].
  change (max_opt (x :: l)) with (Some (fold_right Z.max 0%Z (x :: l))).
  f_equal. apply Z.le_antisymm.
  - rewrite <- E. apply fr_le; [lia|]. intros y Hy. rewrite E in Hy.
    destruct (Hall y Hy); lia.
  - apply fr_ge. exact H8.
Qed.

(** C6: the confidence reported for every technology name is the same for
    every reordering of the files and of the dependencies. *)
Theorem confidence_order_independent : forall findall_count files files' deps deps' t,
  Permutation files files' -> Permutation deps deps' ->
  conf_of t (detect_technologies findall_count files deps) =
  conf_of t (detect_technologies findall_count files' deps').
Proof.
  intros fc files files' deps deps' t Hf Hd. rewrite !conf_of_detect.
  apply max_opt_perm. unfold evidence, content_evidence, dependency_evidence.
  apply Permutation_app; apply Permutation_flat_map; assumption.
Qed.

Lemma confidence_order_independent_witness :
  let fc := fun p c => if (p =? "flask") && (c =? "import flask") then 1%nat else 0%nat in
  let f1 := new_file "app.py" "app.py" "py" 12 "import flask" in
  let f2 := new_file "README.md" "README.md" "md" 5 "Flask" in
  let d1 := mk_dep "Flask-Login" (PStr "0.6") "pip" false in
  let d2 := mk_dep "pytest" (PStr "*") "pip" true in
  Permutation [f1; f2] [f2; f1] /\ Permutation [d1; d2] [d2; d1] /\
  conf_of "Flask" (detect_technologies fc [f1; f2] [d1; d2]) =
  conf_of "Flask" (detect_technologies fc [f2; f1] [d2; d1]).
Proof.
  intros fc f1 f2 d1 d2.
  assert (H1 : Permutation [f1; f2] [f2; f1]) by apply perm_swap.
  assert (H2 : Permutation [d1; d2] [d2; d1]) by apply perm_swap.
  refine (conj H1 (conj H2 _)).
  exact (confidence_order_independent fc [f1; f2] [f2; f1] [d1; d2] [d2; d1] "Flask" H1 H2).
Defined.

End TechFacts.

(** ** String lemmas *)
Module StrFacts.
Import ExtraAux.

Lemma str_app_assoc : forall a b c : string, (a ++ b) ++ c = a ++ (b ++ c).
Proof. induction a as [|x a IH]; intros; simpl; [reflexivity|]. rewrite IH. reflexivity. Qed.

Lemma str_app_nil_r : forall a : string, a ++ "" = a.
Proof. induction a as [|x a IH]; simpl; [reflexivity|]. rewrite IH. reflexivity. Qed.

Lemma startswith_empty : forall s, startswith s "" = true.
Proof. intros [|c s]; reflexivity. Qed.

Lemma startswith_app : forall p t, startswith (p ++ t) p = true.
Proof.
  induction p as [|c p IH]; intro t; simpl; [apply startswith_empty|].
  rewrite Ascii.eqb_refl. apply IH.
Qed.

Lemma startswith_spec : forall s p, startswith s p = true -> exists t, s = p ++ t.
Proof.
  intros s p. revert s. induction p as [|c p IH]; intros s H; [exists s; reflexivity|].
  destruct s as [|d s]; [discriminate|]. simpl in H.
  apply andb_true_iff in H as [H1 H2]. apply Ascii.eqb_eq in H1. subst d.
  destruct (IH s H2) as [t ->]. exists t. reflexivity.
Qed.

Lemma startswith_trans : forall s p q,
  startswith s p = true -> startswith p q = true -> startswith s q = true.
Proof.
  intros s p q H1 H2. apply startswith_spec in H1 as [t ->].
  apply startswith_spec in H2 as [u ->]. rewrite str_app_assoc. apply startswith_app.
Qed.

Lemma drop_app : forall p t, drop (String.length p) (p ++ t) = t.
Proof. induction p as [|c p IH]; intro t; simpl; [reflexivity|]. apply IH. Qed.

Lemma rev_str_app : forall a b, rev_str (a ++ b) = rev_str b ++ rev_str a.
Proof.
  induction a as [|c a IH]; intro b; simpl.
  - rewrite str_app_nil_r. reflexivity.
  - rewrite IH, str_app_assoc. reflexivity.
Qed.

Lemma rev_str_involutive : forall s, rev_str (rev_str s) = s.
Proof. induction s as [|c s IH]; simpl; [reflexivity|]. rewrite rev_str_app, IH. reflexivity. Qed.

Lemma rev_str_empty : forall s, rev_str s = "" -> s = "".
Proof.
  intros [|c s] H; [reflexivity|]. simpl in H.
  destruct (rev_str s); discriminate.
Qed.

Lemma lstrip_idem : forall f s, lstrip_by f (lstrip_by f s) = lstrip_by f s.
Proof.
  intro f. induction s as [|c s IH]; simpl; [reflexivity|].
  destruct (f c) eqn:E; [exact IH|]. simpl. rewrite E. reflexivity.
Qed.

Lemma lstrip_split : forall f s, exists pre, s = pre ++ lstrip_by f s.
Proof.
  intro f. induction s as [|c s IH]; simpl; [exists ""; reflexivity|].
  destruct (f c).
  - destruct IH as [pre Hp]. exists (String c pre). simpl. rewrite <- Hp. reflexivity.
  - exists "". reflexivity.
Qed.

Lemma lstrip_head : forall f s,
  lstrip_by f s = "" \/ exists c t, lstrip_by f s = String c t /\ f c = false.
Proof.
  intro f. induction s as [|c s IH]; simpl; [left; reflexivity|].
  destruct (f c) eqn:E; [exact IH|]. right. exists c, s. split; [reflexivity|exact E].
Qed.

Lemma rstrip_prefix : forall f s, exists suf, s = rstrip_by f s ++ suf.
Proof.
  intros f s. unfold rstrip_by. destruct (lstrip_split f (rev_str s)) as [pre Hp].
  exists (rev_str pre).
  rewrite <- rev_str_app, <- Hp, rev_str_involutive. reflexivity.
Qed.

Lemma rstrip_idem : forall f s, rstrip_by f (rstrip_by f s) = rstrip_by f s.
Proof. intros f s. unfold rstrip_by. rewrite rev_str_involutive, lstrip_idem. reflexivity. Qed.

Lemma lstrip_rstrip : forall f x,
  lstrip_by f x = x -> lstrip_by f (rstrip_by f x) = rstrip_by f x.
Proof.
  intros f x Hx. destruct (rstrip_prefix f x) as [suf Hs].
  destruct (rstrip_by f x) as [|c t] eqn:E; [reflexivity|].
  destruct (lstrip_head f x) as [H|[c' [t' [H Hc]]]]; rewrite Hx in H.
  - rewrite H in Hs. discriminate.
  - rewrite Hs in H. simpl in H. injection H as -> _. simpl. rewrite Hc. reflexivity.
Qed.

Lemma strip_idem : forall s, strip (strip s) = strip s.
Proof.
  intro s. unfold strip.
  rewrite (lstrip_rstrip is_space (lstrip_by is_space s)) by apply lstrip_idem.
  apply rstrip_idem.
Qed.

Lemma has_char_app : forall c a b, has_char c (a ++ b) = has_char c a || has_char c b.
Proof.
  intros c a b. unfold has_char. induction a as [|d a IH]; simpl; [reflexivity|].
  rewrite IH, orb_assoc. reflexivity.
Qed.

Lemma split_no_sep : forall c s, has_char c s = false -> split c s = [s].
Proof.
  intros c s. unfold has_char. induction s as [|d s IH]; intro H; [reflexivity|].
  simpl in H |- *. apply orb_false_iff in H as [H1 H2].
  rewrite Ascii.eqb_sym, H1, IH by exact H2. reflexivity.
Qed.

Lemma split_app_sep : forall c a t,
  has_char c a = false -> split c (a ++ String c t) = a :: split c t.
Proof.
  intros c a t. unfold has_char. induction a as [|d a IH]; intro H; simpl.
  - rewrite Ascii.eqb_refl. reflexivity.
  - simpl in H. apply orb_false_iff in H as [H1 H2].
    rewrite Ascii.eqb_sym, H1, IH by exact H2. reflexivity.
Qed.

Lemma split_pieces : forall c s x, In x (split c s) -> has_char c x = false.
Proof.
  intros c s. induction s as [|d s IH]; intros x H; simpl in H.
  - destruct H as [<-|[]]; reflexivity.
  - destruct (Ascii.eqb d c) eqn:E.
    + destruct H as [<-|H]; [reflexivity|]. apply IH. exact H.
    + destruct (split c s) as [|y ys] eqn:Es.
      * destruct H as [<-|[]]. unfold has_char. simpl.
        rewrite Ascii.eqb_sym, E. reflexivity.
      * destruct H as [<-|H].
        -- unfold has_char in *. simpl. rewrite Ascii.eqb_sym, E.
           apply IH. left. reflexivity.
        -- apply IH. right. exact H.
Qed.

Lemma split_has_sep : forall c s,
  has_char c s = true -> exists a b rest, split c s = a :: b :: rest.
Proof.
  intros c s. unfold has_char. induction s as [|d s IH]; intro H; [discriminate|].
  simpl in H |- *. destruct (Ascii.eqb d c) eqn:E.
  - destruct (split c s) as [|x xs] eqn:Es; [destruct s; simpl in Es;
      [discriminate | destruct (Ascii.eqb a c); [discriminate|destruct (split c s); discriminate]]|].
    eauto.
  - rewrite Ascii.eqb_sym, E in H. simpl in H.
    destruct (IH H) as [a [b [rest ->]]]. eauto.
Qed.

Lemma contains_false_startswith : forall s p, contains s p = false -> startswith s p = false.
Proof. intros [|c s] p H; simpl in H; apply orb_false_iff in H; tauto. Qed.

Lemma replace_go_absent : forall fuel s old new,
  contains s old = false -> replace_go fuel s old new = s.
Proof.
  induction fuel as [|fuel IH]; intros s old new H; [reflexivity|]. simpl.
  rewrite contains_false_startswith by exact H.
  destruct s as [|c s]; [reflexivity|].
  simpl in H. apply orb_false_iff in H as [_ H]. rewrite IH by exact H. reflexivity.
Qed.

Lemma replace_absent : forall s old new,
  old <> "" -> contains s old = false -> replace s old new = s.
Proof.
  intros s old new Hne H. unfold replace. destruct old as [|c o]; [congruence|].
  apply replace_go_absent. exact H.
Qed.

Lemma replace_go_leading : forall fuel old t new,
  replace_go (S fuel) (old ++ t) old new = new ++ replace_go fuel t old new.
Proof. intros. cbn [replace_go]. rewrite startswith_app, drop_app. reflexivity. Qed.

Lemma replace_leading : forall old t new,
  old <> "" -> contains t old = false -> replace (old ++ t) old new = new ++ t.
Proof.
  intros old t new Hne H. destruct old as [|c o]; [congruence|].
  unfold replace. cbv beta iota. rewrite replace_go_leading, replace_go_absent by exact H.
  reflexivity.
Qed.

Lemma lstrip_all : forall f s, lstrip_by f s = "" -> s <> "" ->
  exists c t, s = String c t /\ f c = true.
Proof.
  intros f [|c s] H Hne; [congruence|]. simpl in H.
  destruct (f c) eqn:E; [eauto|discriminate].
Qed.

End StrFacts.

(** ** GitHub client *)
Module ClientFacts.
Import Client ExtraAux StrFacts.

Lemma has_char_contains : forall c s, has_char c s = contains s (String c EmptyString).
Proof.
  intros c s. unfold has_char. induction s as [|d s IH]; [reflexivity|].
  simpl. rewrite IH, startswith_empty. destruct (Ascii.eqb c d); reflexivity.
Qed.

(** X1: a URL [https://github.com/OWNER/REPO], optionally followed by a
    path starting with [/] (such as [/tree/main]), parses to [(OWNER, REPO)]
    when neither part holds a [/] and the prefix does not occur again. *)
Theorem parse_repo_url_round_trip : forall owner repo rest,
  contains owner "/" = false -> contains repo "/" = false ->
  (rest = "" \/ startswith rest "/" = true) ->
  contains (owner ++ "/" ++ repo ++ rest) github_prefix = false ->
  parse_repo_url (github_prefix ++ owner ++ "/" ++ repo ++ rest) = Some (owner, repo).
Proof.
  intros owner repo rest Ho Hr Hrest Hc. unfold parse_repo_url.
  rewrite replace_leading by (discriminate || exact Hc).
  rewrite <- has_char_contains in Ho, Hr.
  assert (Hs : exists tl, split "/" (owner ++ "/" ++ repo ++ rest) = owner :: repo :: tl).
  { cbn [append]. rewrite split_app_sep by exact Ho.
    destruct Hrest as [->|Hrest].
    - rewrite str_app_nil_r, split_no_sep by exact Hr. exists []. reflexivity.
    - apply startswith_spec in Hrest as [t ->]. cbn [append].
      rewrite split_app_sep by exact Hr. eexists. reflexivity. }
  destruct Hs as [tl Hs]. cbn [append] in Hs |- *. rewrite Hs. reflexivity.
Qed.

Lemma parse_repo_url_round_trip_witness :
  contains "ShamaliiW" "/" = false /\ contains "Codebase-Genius" "/" = false /\
  parse_repo_url "https://github.com/ShamaliiW/Codebase-Genius/tree/main" =
    Some ("ShamaliiW", "Codebase-Genius").
Proof.
  assert (H1 : contains "ShamaliiW" "/" = false) by reflexivity.
  assert (H2 : contains "Codebase-Genius" "/" = false) by reflexivity.
  refine (conj H1 (conj H2 _)).
  exact (parse_repo_url_round_trip "ShamaliiW" "Codebase-Genius" "/tree/main" H1 H2
           (or_intror eq_refl) eq_refl).
Defined.

(** X2: [_parse_repo_url] raises exactly when no [/] is left once every
    [https://github.com/] is removed; otherwise owner and repository are the
    first two [/]-separated pieces and hold no [/]. *)
Theorem parse_repo_url_pieces : forall url,
  match parse_repo_url url with
  | Some (owner, repo) =>
      contains (replace url github_prefix "") "/" = true /\
      contains owner "/" = false /\ contains repo "/" = false
  | None => contains (replace url github_prefix "") "/" = false
  end.
Proof.
  intro url. unfold parse_repo_url.
  set (s := replace url github_prefix "").
  destruct (contains s "/") eqn:E.
  - rewrite <- has_char_contains in E.
    destruct (split_has_sep "/" s E) as [a [b [rest Hs]]]. rewrite Hs. simpl.
    rewrite <- !has_char_contains.
    split; [reflexivity|].
    split; apply (split_pieces "/" s); rewrite Hs; simpl; auto.
  - rewrite <- has_char_contains in E. rewrite split_no_sep by exact E. reflexivity.
Qed.

(** X3: a URL written with [http://] (and no [https://github.com/] in it)
    gives the owner [http:] and the repository [""]: the requests then go
    to [/repos/http:/]. *)
Theorem http_url_misparsed : forall t,
  contains ("http://" ++ t) github_prefix = false ->
  parse_repo_url ("http://" ++ t) = Some ("http:", "").
Proof.
  intros t H. unfold parse_repo_url.
  rewrite replace_absent by (discriminate || exact H). reflexivity.
Qed.

Lemma http_url_misparsed_witness :
  contains ("http://" ++ "github.com/ShamaliiW/Codebase-Genius") github_prefix = false /\
  parse_repo_url "http://github.com/ShamaliiW/Codebase-Genius" = Some ("http:", "").
Proof.
  assert (H : contains ("http://" ++ "github.com/ShamaliiW/Codebase-Genius") github_prefix = false)
    by (vm_compute; reflexivity).
  exact (conj H (http_url_misparsed "github.com/ShamaliiW/Codebase-Genius" H)).
Defined.

(** X4: [fetch_readme] never returns the empty string: it returns the
    content of the first of README.md, readme.md, README.rst, README.txt,
    README whose fetch is non-empty, and ["No README file found"] when all
    five are empty. *)
Theorem fetch_readme_first_nonempty : forall fetch,
  fetch_readme fetch <> "" /\
  (fetch_readme fetch = "No README file found" /\ Forall (fun n => fetch n = "") readme_files \/
   exists pre n post, readme_files = (pre ++ n :: post)%list /\
     Forall (fun m => fetch m = "") pre /\ fetch n <> "" /\ fetch_readme fetch = fetch n).
Proof.
  intro fetch. unfold fetch_readme.
  assert (H : forall names,
    fetch_readme_go fetch names <> "" /\
    (fetch_readme_go fetch names = "No README file found" /\ Forall (fun n => fetch n = "") names \/
     exists pre n post, names = (pre ++ n :: post)%list /\
       Forall (fun m => fetch m = "") pre /\ fetch n <> "" /\ fetch_readme_go fetch names = fetch n)).
  { induction names as [|n ns [IHne IH]]; simpl.
    - split; [discriminate|]. left. split; [reflexivity|constructor].
    - destruct (fetch n =? "") eqn:E0;
        [apply String.eqb_eq in E0 as E | apply String.eqb_neq in E0 as E].
      + split; [exact IHne|].
        destruct IH as [[H1 H2]|[pre [m [post [H1 [H2 [H3 H4]]]]]]].
        * left. split; [exact H1|]. constructor; assumption.
        * right. exists (n :: pre), m, post.
          split; [rewrite H1; reflexivity|]. split; [constructor; assumption|]. split; assumption.
      + split; [exact E|]. right. exists [], n, ns.
        split; [reflexivity|]. split; [constructor|]. split; [exact E|reflexivity]. }
  apply H.
Qed.

End ClientFacts.

(** ** The [.gitignore] patterns and the path filter *)
Module GitignoreFacts.
Import PathFilter Gitignore ExtraAux StrFacts.

Lemma set_add_in : forall s x y, In y (set_add s x) <-> y = x \/ In y s.
Proof.
  intros s x y. unfold set_add. destruct (existsb (String.eqb x) s) eqn:E.
  - apply existsb_exists in E as [z [Hz Ez]]. apply String.eqb_eq in Ez. subst z.
    split; [tauto|]. intros [->|H]; assumption.
  - rewrite in_app_iff. simpl. intuition (subst; auto).
Qed.

Lemma ignore_fold_in : forall lines acc p,
  In p (fold_left (fun acc raw =>
          let line := strip raw in
          if negb (line =? "") && negb (startswith line "#") then set_add acc line else acc)
        lines acc) ->
  In p acc \/ exists raw, In raw lines /\ p = strip raw /\
                          strip raw <> "" /\ startswith (strip raw) "#" = false.
Proof.
  induction lines as [|l ls IH]; intros acc p H; [left; exact H|]. simpl in H.
  destruct (IH _ _ H) as [H1|[raw [H2 H3]]].
  - destruct (String.eqb_spec (strip l) "") as [E|E]; simpl in H1; [left; exact H1|].
    destruct (startswith (strip l) "#") eqn:Eh; simpl in H1; [left; exact H1|].
    apply set_add_in in H1 as [->|H1]; [|left; exact H1].
    right. exists l. simpl. auto.
  - right. exists raw. simpl. auto.
Qed.

(** X5: every pattern built from [.gitignore] is non-empty, does not start
    with [#], and has no surrounding whitespace ([p.strip() == p]). *)
Theorem ignore_patterns_clean : forall gitignore_content p,
  In p (ignore_patterns_of gitignore_content) ->
  p <> "" /\ startswith p "#" = false /\ strip p = p.
Proof.
  intros c p H. unfold ignore_patterns_of in H.
  destruct (c =? ""); [destruct H|].
  destruct (ignore_fold_in _ [] p H) as [[]|[raw [_ [-> [H1 H2]]]]].
  split; [exact H1|]. split; [exact H2|]. apply strip_idem.
Qed.

Lemma ignore_patterns_clean_witness :
  In "node_modules/" (ignore_patterns_of ("  node_modules/  " ++ String "010" "# build")) /\
  strip "node_modules/" = "node_modules/".
Proof.
  assert (H : In "node_modules/" (ignore_patterns_of ("  node_modules/  " ++ String "010" "# build")))
    by (vm_compute; left; reflexivity).
  exact (conj H (proj2 (proj2 (ignore_patterns_clean _ _ H)))).
Defined.

Lemma ignore_scan_existsb : forall ps fp fn,
  fst (ignore_scan ps fp fn) = existsb (fun p => pattern_matches p fp fn) ps.
Proof.
  induction ps as [|p ps IH]; intros fp fn; [reflexivity|]. simpl.
  destruct (pattern_matches p fp fn); [reflexivity|].
  specialize (IH fp fn). destruct (ignore_scan ps fp fn). exact IH.
Qed.

Lemma should_analyze_existsb : forall ps item,
  should_analyze ps item =
  (item_type item =? "blob") &&
  negb (existsb (fun p => pattern_matches p (item_path item) (file_name_of (item_path item))) ps) &&
  (item_size item <? max_file_size)%Z &&
  negb (is_excluded (extension_of (file_name_of (item_path item)))).
Proof.
  intros ps item. unfold should_analyze, should_analyze_trace.
  destruct (item_type item =? "blob"); [|reflexivity]. simpl.
  rewrite <- ignore_scan_existsb.
  destruct (ignore_scan ps _ _) as [[|] tr]; simpl; [reflexivity|].
  destruct (item_size item <? max_file_size)%Z; reflexivity.
Qed.

(** X6: the decision of the filter depends only on which patterns are in
    the set, not on the order in which the loop visits them (a Python set
    has no fixed order) nor on repetitions. *)
Theorem decision_depends_on_pattern_set : forall ps ps' item,
  (forall p, In p ps <-> In p ps') ->
  should_analyze ps item = should_analyze ps' item.
Proof.
  intros ps ps' item H. rewrite !should_analyze_existsb.
  set (g := fun p => pattern_matches p (item_path item) (file_name_of (item_path item))).
  assert (E : existsb g ps = existsb g ps').
  { destruct (existsb g ps) eqn:E1; destruct (existsb g ps') eqn:E2; try reflexivity.
    - apply existsb_exists in E1 as [x [Hx Gx]].
      assert (existsb g ps' = true) by (apply existsb_exists; exists x; split; [apply H|]; assumption).
      congruence.
    - apply existsb_exists in E2 as [x [Hx Gx]].
      assert (existsb g ps = true) by (apply existsb_exists; exists x; split; [apply H|]; assumption).
      congruence. }
  rewrite E. reflexivity.
Qed.

Lemma decision_depends_on_pattern_set_witness :
  (forall p, In p ["*.log"; "build/"] <-> In p ["build/"; "*.log"; "build/"]) /\
  should_analyze ["*.log"; "build/"] (mk_item "build/app.js" "blob" 10) =
  should_analyze ["build/"; "*.log"; "build/"] (mk_item "build/app.js" "blob" 10).
Proof.
  assert (H : forall p, In p ["*.log"; "build/"] <-> In p ["build/"; "*.log"; "build/"])
    by (intro p; simpl; tauto).
  exact (conj H (decision_depends_on_pattern_set _ _ (mk_item "build/app.js" "blob" 10) H)).
Defined.

Lemma rstrip_empty_endswith : forall f p,
  p <> "" -> rstrip_by f p = "" -> exists c t, rev_str p = String c t /\ f c = true.
Proof.
  intros f p Hne H. unfold rstrip_by in H. apply rev_str_empty in H.
  apply lstrip_all in H as [c [t [Hc Hf]]]; [eauto|].
  intro E. apply Hne. rewrite <- (rev_str_involutive p), E. reflexivity.
Qed.

(** X7: a [.gitignore] line made only of slashes ([/], [//], ...) excludes
    every file of the tree: stripped of its trailing slashes it is the empty
    prefix, which every path starts with. *)
Theorem slash_pattern_excludes_all : forall ps p tree,
  In p ps -> p <> "" -> rstrip_by (Ascii.eqb "/") p = "" ->
  files_to_analyze ps tree = [].
Proof.
  intros ps p tree Hin Hne Hr. unfold files_to_analyze.
  induction tree as [|item tree IH]; [reflexivity|]. simpl.
  assert (Hm : forall fp fn, pattern_matches p fp fn = true).
  { intros fp fn. unfold pattern_matches.
    destruct (rstrip_empty_endswith _ p Hne Hr) as [c [t [Hrev Hc]]].
    apply Ascii.eqb_eq in Hc. subst c.
    assert (Hend : endswith p "/" = true) by (unfold endswith; rewrite Hrev; simpl; rewrite startswith_empty; reflexivity).
    rewrite Hend, Hr, startswith_empty. reflexivity. }
  rewrite should_analyze_existsb.
  assert (existsb (fun p0 => pattern_matches p0 (item_path item) (file_name_of (item_path item))) ps = true)
    by (apply existsb_exists; exists p; split; [exact Hin | apply Hm]).
  rewrite H. rewrite andb_false_r. simpl. exact IH.
Qed.

Lemma slash_pattern_excludes_all_witness :
  In "/" (ignore_patterns_of ("/" ++ String "010" "*.log")) /\
  files_to_analyze (ignore_patterns_of ("/" ++ String "010" "*.log"))
    [mk_item "src/main.py" "blob" 10; mk_item "README.md" "blob" 20] = [].
Proof.
  assert (H : In "/" (ignore_patterns_of ("/" ++ String "010" "*.log")))
    by (vm_compute; left; reflexivity).
  exact (conj H (slash_pattern_excludes_all _ "/" _ H ltac:(discriminate) eq_refl)).
Defined.

Lemma last_or_in : forall d l, l <> [] -> In (last_or d l) l.
Proof.
  intros d l. induction l as [|x l IH]; intro H; [congruence|].
  destruct l as [|y l]; [left; reflexivity|].
  change (last_or d (x :: y :: l)) with (last_or d (y :: l)).
  right. apply IH. discriminate.
Qed.

Lemma file_name_no_slash : forall fp, has_char "/" (file_name_of fp) = false.
Proof.
  intro fp. unfold file_name_of. apply (split_pieces "/" fp).
  apply last_or_in. destruct (ParserTotality.split_cons "/" fp) as [x [xs ->]]. discriminate.
Qed.

(** X8: a pattern anchored with a leading [/] (such as [/build/] or
    [/dist]) that is not all slashes never matches: the tree's paths are
    relative and never start with [/]. *)
Theorem anchored_pattern_never_matches : forall p fp,
  startswith p "/" = true -> rstrip_by (Ascii.eqb "/") p <> "" ->
  startswith fp "/" = false ->
  pattern_matches p fp (file_name_of fp) = false.
Proof.
  intros p fp Hp Hr Hfp. unfold pattern_matches.
  assert (H1 : startswith fp (rstrip_by (Ascii.eqb "/") p) = false).
  { destruct (startswith fp (rstrip_by (Ascii.eqb "/") p)) eqn:E; [|reflexivity].
    exfalso. destruct (rstrip_prefix (Ascii.eqb "/") p) as [suf Hs].
    destruct (rstrip_by (Ascii.eqb "/") p) as [|c t] eqn:Er; [congruence|].
    assert (Hc : startswith (String c t) "/" = true).
    { apply startswith_spec in Hp as [u Hu]. rewrite Hs in Hu.
      simpl in Hu. injection Hu as -> _. simpl. rewrite startswith_empty. reflexivity. }
    rewrite (startswith_trans fp (String c t) "/" E Hc) in Hfp. discriminate. }
  rewrite H1, andb_false_r.
  assert (H2 : startswith p "*." = false).
  { destruct p as [|c p]; [discriminate|]. cbn [startswith] in Hp.
    apply andb_true_iff in Hp as [Hc _]. apply Ascii.eqb_eq in Hc. subst c. reflexivity. }
  rewrite H2. simpl.
  assert (H3 : (p =? file_name_of fp) = false).
  { apply String.eqb_neq. intro E.
    pose proof (file_name_no_slash fp) as Hn. rewrite <- E in Hn.
    apply startswith_spec in Hp as [u ->]. discriminate. }
  assert (H4 : (p =? fp) = false).
  { apply String.eqb_neq. intro E. subst fp. rewrite Hp in Hfp. discriminate. }
  rewrite H3, H4. reflexivity.
Qed.

Lemma anchored_pattern_never_matches_witness :
  startswith "/build/" "/" = true /\ rstrip_by (Ascii.eqb "/") "/build/" <> "" /\
  startswith "build/app.js" "/" = false /\
  pattern_matches "/build/" "build/app.js" (file_name_of "build/app.js") = false.
Proof.
  assert (H2 : rstrip_by (Ascii.eqb "/") "/build/" <> "") by (vm_compute; discriminate).
  refine (conj eq_refl (conj H2 (conj eq_refl _))).
  exact (anchored_pattern_never_matches "/build/" "build/app.js" eq_refl H2 eq_refl).
Defined.

End GitignoreFacts.

(** ** The per-file analysis and the file loop *)
Module FileFacts.
Import PathFilter Analyzer FileLoop ExtraAux StrFacts.

Ltac crush_file :=
  repeat (cbv beta iota zeta delta [path name extension size content language line_count
            function_count class_count complexity_score set_counts set_line_count
            set_complexity set_content new_file] in *;
          match goal with
          | |- context [if ?b then _ else _] => destruct b eqn:?
          | |- context [match ?x with Some _ => _ | None => _ end] => destruct x eqn:?
          | |- context [match ?x with pair _ _ => _ end] => destruct x eqn:?
          end); try reflexivity; try congruence.

Section WithParsers.
Variable ast_parse : string -> option py_module.
Variable js_regex_counts : string -> nat * nat.

Lemma analyze_file_keeps : forall f,
  let g := analyze_file ast_parse js_regex_counts f in
  path g = path f /\ name g = name f /\ extension g = extension f /\
  size g = size f /\ content g = content f /\ language g = language f.
Proof.
  intros [p n e sz c l lc fc cc cx]. unfold analyze_file, analyze_python_code,
    analyze_javascript_code, analyze_generic_code. cbv zeta.
  crush_file; repeat split.
Qed.

End WithParsers.

Lemma split_length : forall c s,
  List.length (split c s) = S (count s (String c EmptyString)).
Proof.
  intros c s. unfold count.
  assert (H : forall fuel s, (String.length s < fuel)%nat ->
            List.length (split c s) = S (count_go fuel s (String c EmptyString))).
  { induction fuel as [|fuel IH]; intros s' Hl; [lia|].
    destruct s' as [|d s']; [reflexivity|].
    cbn [count_go split]. cbn [startswith]. rewrite startswith_empty, andb_true_r.
    destruct (Ascii.eqb_spec c d) as [<-|Hne];
      [rewrite Ascii.eqb_refl
      |rewrite (proj2 (Ascii.eqb_neq d c) (not_eq_sym Hne))].
    - cbn [List.length]. rewrite IH by (simpl in Hl; lia). reflexivity.
    - destruct (ParserTotality.split_cons c s') as [x [xs Hs]]. rewrite Hs.
      cbn [List.length]. rewrite <- IH by (simpl in Hl; lia). rewrite Hs. reflexivity. }
  apply H. lia.
Qed.

(** X9: [analyze_file] sets [line_count] to one more than the number of
    newline characters of a non-empty content (a trailing newline counts as
    a further, empty line) and leaves a file with empty content as it is. *)
Theorem line_count_counts_newlines : forall ast_parse js_regex_counts f,
  line_count (analyze_file ast_parse js_regex_counts f) =
  if content f =? "" then line_count f
  else S (count (content f) (String "010" EmptyString)).
Proof.
  intros ap jc f. rewrite <- split_length.
  destruct f as [p n e sz c l lc fc cc cx]. unfold analyze_file, analyze_python_code,
    analyze_javascript_code, analyze_generic_code. cbv zeta.
  crush_file.
Qed.

(** X10: analysing an analysed file changes nothing: [analyze_file] is
    idempotent, for every outcome of [ast.parse] and of the JavaScript
    patterns. *)
Theorem analyze_file_idempotent : forall ast_parse js_regex_counts f,
  analyze_file ast_parse js_regex_counts (analyze_file ast_parse js_regex_counts f) =
  analyze_file ast_parse js_regex_counts f.
Proof.
  intros ap jc [p n e sz c l lc fc cc cx].
  unfold analyze_file at 2. cbn [content].
  destruct (c =? "") eqn:Ec; [unfold analyze_file; cbn [content]; rewrite Ec; reflexivity|].
  unfold analyze_file, analyze_python_code, analyze_javascript_code, analyze_generic_code.
  cbv zeta. crush_file.
Qed.

End FileFacts.

(** ** The extension of an analysed file *)
Module ExtensionFacts.
Import PathFilter Analyzer FileLoop ExtraAux StrFacts.

Lemma rfind_go_spec : forall c s i acc,
  (rfind_go c i s acc = acc /\ has_char c s = false) \/
  exists j t, rfind_go c i s acc = Some (i + j)%nat /\ drop j s = String c t /\
              has_char c t = false.
Proof.
  intros c s. induction s as [|d s IH]; intros i acc; [left; split; reflexivity|].
  cbn [rfind_go]. destruct (IH (S i) (if Ascii.eqb c d then Some i else acc))
    as [[Hr Hn]|[j [t [Hr [Hd Hn]]]]].
  - rewrite Hr. destruct (Ascii.eqb c d) eqn:E.
    + right. exists 0%nat, s. apply Ascii.eqb_eq in E. subst d.
      rewrite Nat.add_0_r. split; [reflexivity|]. split; [reflexivity|exact Hn].
    + left. split; [reflexivity|]. unfold has_char in *. simpl. rewrite E. exact Hn.
  - right. exists (S j), t. rewrite Hr. split; [f_equal; lia|]. split; assumption.
Qed.

Lemma path_suffix_shape : forall name,
  path_suffix name = "" \/
  exists t, path_suffix name = String "." t /\ has_char "." t = false.
Proof.
  intro nm. unfold path_suffix, rfind.
  destruct (rfind_go_spec "." nm 0 None) as [[Hr _]|[j [t [Hr [Hd Hn]]]]];
    rewrite Hr; [left; reflexivity|].
  destruct (((0 <? 0 + j) && (0 + j <? String.length nm - 1))%nat); [|left; reflexivity].
  right. exists t. split; [exact Hd|exact Hn].
Qed.

Lemma lower_char_dot : forall c, Ascii.eqb "." (lower_char c) = Ascii.eqb "." c.
Proof. intros [[] [] [] [] [] [] [] []]; reflexivity. Qed.

Lemma has_char_lower_dot : forall t, has_char "." (lower t) = has_char "." t.
Proof.
  induction t as [|c t IH]; [reflexivity|]. unfold has_char in *.
  cbn [lower list_ascii_of_string existsb]. rewrite lower_char_dot, IH. reflexivity.
Qed.

Lemma lstrip_no_dot : forall u, has_char "." u = false -> lstrip_by (Ascii.eqb ".") u = u.
Proof.
  intros [|c u] H; [reflexivity|]. unfold has_char in H.
  cbn [list_ascii_of_string existsb lstrip_by] in H |- *.
  apply orb_false_iff in H as [H _]. rewrite H. reflexivity.
Qed.

(** The [ext] of the file loop: [Path(file_name).suffix.lower()] without
    its dot, and without a dot of its own. *)
Lemma item_ext_spec : forall fname,
  let ext := lstrip_by (Ascii.eqb ".") (extension_of fname) in
  has_char "." ext = false /\
  (extension_of fname = String "." ext \/ (extension_of fname = "" /\ ext = "")).
Proof.
  intro fname. cbv zeta. unfold extension_of.
  destruct (path_suffix_shape fname) as [->|[t [-> Hn]]]; [auto|].
  change (lower (String "." t)) with (String (lower_char ".") (lower t)).
  replace (lower_char ".") with "."%char by reflexivity.
  cbn [lstrip_by]. rewrite Ascii.eqb_refl.
  assert (Hl : has_char "." (lower t) = false) by (rewrite has_char_lower_dot; exact Hn).
  rewrite lstrip_no_dot by exact Hl. auto.
Qed.

Lemma analyze_item_extension : forall ap jc fetch item,
  extension (analyze_item ap jc fetch item) =
  lstrip_by (Ascii.eqb ".") (extension_of (file_name_of (item_path item))).
Proof.
  intros ap jc fetch item. unfold analyze_item. cbv zeta.
  destruct (_ || _); [|reflexivity].
  destruct (fetch (item_path item) =? ""); [reflexivity|].
  rewrite (proj1 (proj2 (proj2 (FileFacts.analyze_file_keeps ap jc _)))). reflexivity.
Qed.

Lemma in_cap_files : forall x items, In x (cap_files items) -> In x items.
Proof.
  intros x items H. unfold cap_files in H. destruct (max_files <? List.length items)%nat; [|exact H].
  rewrite <- (firstn_skipn max_files items). apply in_or_app. left. exact H.
Qed.

Lemma filter_all_true : forall {A} (p : A -> bool) l,
  (forall x, In x l -> p x = true) -> filter p l = l.
Proof.
  intros A p l. induction l as [|x l IH]; intro H; [reflexivity|]. simpl.
  rewrite (H x (or_introl eq_refl)), IH by (intros y Hy; apply H; right; exact Hy).
  reflexivity.
Qed.

(** X11: the image filter of [generate_readme] ([png], [jpg], [gif],
    [ico]) never removes an analysed file: the path filter already dropped
    those extensions, so [total_files] is the number of analysed files. *)
Theorem readme_counts_every_analyzed_file : forall ast_parse js_regex_counts fetch patterns tree,
  Docs.readme_total_files (analyzed_files ast_parse js_regex_counts fetch patterns tree) =
  List.length (analyzed_files ast_parse js_regex_counts fetch patterns tree).
Proof.
  intros ap jc fetch patterns tree. unfold Docs.readme_total_files.
  rewrite filter_all_true; [reflexivity|]. intros f Hf.
  unfold analyzed_files in Hf. apply in_map_iff in Hf as [item [<- Hi]].
  apply in_cap_files in Hi. unfold files_to_analyze in Hi. apply filter_In in Hi as [_ Hs].
  rewrite GitignoreFacts.should_analyze_existsb in Hs.
  apply andb_true_iff in Hs as [_ Hx]. apply negb_true_iff in Hx.
  rewrite analyze_item_extension.
  destruct (item_ext_spec (file_name_of (item_path item))) as [_ [He|[_ He]]].
  - set (ext := lstrip_by (Ascii.eqb ".") (extension_of (file_name_of (item_path item)))) in *.
    apply negb_true_iff. destruct (existsb (String.eqb ext) _) eqn:E; [|reflexivity].
    apply existsb_exists in E as [x [Hin Ex]]. apply String.eqb_eq in Ex. rewrite He, Ex in Hx.
    simpl in Hin. destruct Hin as [<-|[<-|[<-|[<-|[]]]]]; discriminate Hx.
  - rewrite He. reflexivity.
Qed.

End ExtensionFacts.

(** ** The orchestrator *)
Module PipelineFacts.
Import PathFilter Analyzer FileLoop Pipeline.

Lemma analyze_item_path : forall ap jc fetch item,
  path (analyze_item ap jc fetch item) = item_path item.
Proof.
  intros ap jc fetch item. unfold analyze_item. cbv zeta.
  destruct (_ || _); [|reflexivity].
  destruct (fetch (item_path item) =? ""); [reflexivity|].
  rewrite (proj1 (FileFacts.analyze_file_keeps ap jc _)). reflexivity.
Qed.

Lemma analyzed_files_paths : forall ap jc fetch patterns tree,
  map path (analyzed_files ap jc fetch patterns tree) =
  firstn max_files (map item_path (files_to_analyze patterns tree)).
Proof.
  intros ap jc fetch patterns tree. unfold analyzed_files.
  rewrite map_map, firstn_map.
  rewrite (map_ext _ _ (analyze_item_path ap jc fetch)). f_equal.
  unfold cap_files. destruct (Nat.ltb_spec max_files (List.length (files_to_analyze patterns tree)));
    [reflexivity|]. symmetry. apply firstn_all2. exact H.
Qed.

(** X13: a completed analysis holds at most 50 files: the first 50 blobs of
    the tree that pass the path filter, in tree order, each under its tree
    path. *)
Theorem completed_analysis_files :
  forall info_ok fetch tree_request ast_parse js_regex_counts json_loads findall_count
         documentation_ok r,
  analyze_repository info_ok fetch tree_request ast_parse js_regex_counts json_loads
    findall_count documentation_ok = Some r ->
  analysis_complete r = true ->
  (List.length (files r) <= 50)%nat /\
  map path (files r) =
  firstn 50 (map item_path (files_to_analyze
                (Gitignore.ignore_patterns_of (fetch ".gitignore"))
                (Client.fetch_repository_tree tree_request "main"))).
Proof.
  intros info fetch tr ap jc jl fc dok r H Hc. unfold analyze_repository in H.
  destruct info; [|injection H as <-; discriminate]. cbv zeta in H. simpl negb in H.
  cbv iota in H.
  destruct (Client.fetch_repository_tree tr "main") as [|it its] eqn:Et;
    [injection H as <-; discriminate|].
  destruct dok; [|discriminate]. injection H as <-. cbn [files].
  rewrite <- Et. split.
  - rewrite <- (length_map path), analyzed_files_paths. apply firstn_le_length.
  - apply analyzed_files_paths.
Qed.

Lemma completed_analysis_files_witness :
  let fetch := fun (n : string) => if n =? ".gitignore" then "*.log" else "x = 1" in
  let tr := fun (b : string) =>
    Some (Some [mk_item "app.py" "blob" 10; mk_item "debug.log" "blob" 10;
                mk_item "lib/util.py" "blob" 20]) in
  match analyze_repository true fetch tr (fun _ => None) (fun _ => (0, 0)%nat)
          (fun _ => Py.Raise Py.JSONDecodeError) (fun _ _ => 0%nat) true with
  | Some r =>
      analysis_complete r = true /\
      (List.length (files r) <= 50)%nat /\
      map path (files r) =
      firstn 50 (map item_path (files_to_analyze
                  (Gitignore.ignore_patterns_of (fetch ".gitignore"))
                  (Client.fetch_repository_tree tr "main")))
  | None => False
  end.
Proof.
  intros fetch tr.
  destruct (analyze_repository true fetch tr (fun _ => None) (fun _ => (0, 0)%nat)
              (fun _ => Py.Raise Py.JSONDecodeError) (fun _ _ => 0%nat) true) as [r|] eqn:E.
  - assert (Hc : analysis_complete r = true)
      by (vm_compute in E; injection E as <-; reflexivity).
    exact (conj Hc (completed_analysis_files true fetch tr _ _ _ _ true r E Hc)).
  - vm_compute in E. discriminate E.
Defined.

(** X15: when the tree request raises for [main] and again for [master],
    the analysis returns the README it fetched with no files, dependencies or
    technologies, marked incomplete; no manifest is read and the
    documentation step is not run. *)
Theorem no_tree_incomplete :
  forall fetch tree_request ast_parse js_regex_counts json_loads findall_count documentation_ok,
  tree_request "main" = None -> tree_request "master" = None ->
  analyze_repository true fetch tree_request ast_parse js_regex_counts json_loads
    findall_count documentation_ok =
  Some (mk_repository (Client.fetch_readme fetch) [] [] [] false).
Proof.
  intros fetch tr ap jc jl fc dok Hm Hs. unfold analyze_repository.
  assert (Ht : Client.fetch_repository_tree tr "main" = []).
  { unfold Client.fetch_repository_tree, Client.tree_attempt. rewrite Hm, Hs. reflexivity. }
  cbv zeta. simpl negb. cbv iota. rewrite Ht. reflexivity.
Qed.

Lemma no_tree_incomplete_witness :
  let tr := fun (_ : string) => @None (option (list tree_item)) in
  tr "main" = None /\ tr "master" = None /\
  analyze_repository true (fun n => if n =? "README.md" then "# Demo" else "") tr
    (fun _ => None) (fun _ => (0, 0)%nat) (fun _ => Py.Raise Py.JSONDecodeError)
    (fun _ _ => 0%nat) true =
  Some (mk_repository "# Demo" [] [] [] false).
Proof.
  intro tr. refine (conj eq_refl (conj eq_refl _)).
  exact (no_tree_incomplete (fun n => if n =? "README.md" then "# Demo" else "") tr
           (fun _ => None) (fun _ => (0, 0)%nat) (fun _ => Py.Raise Py.JSONDecodeError)
           (fun _ _ => 0%nat) true eq_refl eq_refl).
Defined.

End PipelineFacts.

(** ** The manifest registry and the requirements parser *)
Module DepsFacts.
Import Deps ExtraAux StrFacts.

(** X16: a manifest whose parser raises adds exactly what an absent
    manifest adds: the dependency list is the one computed as if that file
    did not exist (the exception is swallowed and no partial result of it
    survives). *)
Theorem raising_manifest_counts_as_absent : forall json_loads fetch fname parser,
  In (fname, parser) (package_managers json_loads) ->
  (exists e, parser (fetch fname) = Raise e) ->
  analyze_dependencies json_loads fetch =
  analyze_dependencies json_loads (fun n => if n =? fname then "" else fetch n).
Proof.
  intros jl fetch fname parser Hin He. unfold analyze_dependencies.
  apply (ParserTotality.collect_deps_raise_absent _ fetch fname parser);
    [apply ParserTotality.manifest_names_nodup|exact Hin|exact He].
Qed.

Lemma raising_manifest_counts_as_absent_witness :
  let jl := fun (_ : string) => @Raise pyobj JSONDecodeError in
  let fetch := fun n => if n =? "package.json" then "{broken" else
                        if n =? "requirements.txt" then "flask>=2.0" else "" in
  In ("package.json", parse_npm_dependencies jl) (package_managers jl) /\
  (exists e, parse_npm_dependencies jl (fetch "package.json") = Raise e) /\
  analyze_dependencies jl fetch =
  analyze_dependencies jl (fun n => if n =? "package.json" then "" else fetch n).
Proof.
  intros jl fetch.
  assert (H1 : In ("package.json", parse_npm_dependencies jl) (package_managers jl))
    by (left; reflexivity).
  assert (H2 : exists e, parse_npm_dependencies jl (fetch "package.json") = Raise e)
    by (exists JSONDecodeError; reflexivity).
  refine (conj H1 (conj H2 _)).
  exact (raising_manifest_counts_as_absent jl fetch "package.json" _ H1 H2).
Defined.

Lemma parse_pip_line_shape : forall l,
  exists d, parse_pip_line l = Ok (if requirement_line l then [d] else []) /\
    dep_type d = "pip" /\ is_dev d = false /\ strip (dep_name d) = dep_name d /\
    dep_version d <> PStr "".
Proof.
  intro l. unfold parse_pip_line, requirement_line.
  destruct (ParserTotality.re_split_ops_cons (strip l)) as [x [xs Hx]].
  set (nv := strip x).
  set (v := strip (replace (strip l) nv "")).
  exists (mk_dep nv (PStr (if v =? "" then "*" else v)) "pip" false).
  split.
  - destruct (strip l =? ""); [reflexivity|].
    destruct (startswith (strip l) "#"); [reflexivity|]. simpl. rewrite Hx. reflexivity.
  - cbn [dep_type is_dev dep_name dep_version]. split; [reflexivity|]. split; [reflexivity|].
    split; [apply strip_idem|].
    destruct (String.eqb_spec v ""); [discriminate|]. intro E. injection E as E. congruence.
Qed.

(** X17: the requirements parser never raises and gives exactly one record
    per line that is neither blank nor a comment, in line order; every
    record has type [pip], is not a development dependency, has a name
    without surrounding whitespace and a non-empty version (["*"] when
    nothing is left after the name). *)
Theorem pip_one_record_per_requirement_line : forall c,
  exists ds, parse_pip_dependencies c = Ok ds /\
    List.length ds = List.length (filter requirement_line (split "010" c)) /\
    Forall (fun d => dep_type d = "pip" /\ is_dev d = false /\
                     strip (dep_name d) = dep_name d /\ dep_version d <> PStr "") ds.
Proof.
  intro c. unfold parse_pip_dependencies. induction (split "010" c) as [|l ls IH].
  - exists []. split; [reflexivity|]. split; [reflexivity|constructor].
  - destruct IH as [ds [Hds [Hlen Hall]]].
    destruct (parse_pip_line_shape l) as [d [Hd Hprops]].
    exists ((if requirement_line l then [d] else []) ++ ds)%list.
    split; [simpl; rewrite Hd, Hds; reflexivity|].
    simpl. destruct (requirement_line l); simpl.
    + split; [rewrite Hlen; reflexivity|]. constructor; assumption.
    + split; assumption.
Qed.

Lemma interleave_empty : forall s, interleave s "" = s.
Proof. induction s as [|c s IH]; [reflexivity|]. simpl. rewrite IH. reflexivity. Qed.

Lemma req_op_not_hash : forall c, is_req_op c = true -> Ascii.eqb "#" c = false.
Proof.
  intros c H. unfold is_req_op in H. simpl in H.
  destruct (Ascii.eqb_spec c ">"); [subst; reflexivity|].
  destruct (Ascii.eqb_spec c "="); [subst; reflexivity|].
  destruct (Ascii.eqb_spec c "<"); [subst; reflexivity|].
  destruct (Ascii.eqb_spec c "~"); [subst; reflexivity|].
  destruct (Ascii.eqb_spec c "!"); [subst; reflexivity|]. discriminate.
Qed.

(** X18: a requirement line that starts with an operator character
    ([>], [=], [<], [~], [!]) gives one record with an empty name and the
    whole stripped line as its version ([line.replace('', '')] leaves the
    line unchanged). *)
Theorem pip_leading_operator : forall raw c t,
  strip raw = String c t -> is_req_op c = true ->
  parse_pip_line raw = Ok [mk_dep "" (PStr (strip raw)) "pip" false].
Proof.
  intros raw c t Hs Hop. unfold parse_pip_line. rewrite Hs.
  cbn [String.eqb orb startswith]. rewrite (req_op_not_hash c Hop). cbn [andb orb].
  cbn [re_split_ops]. rewrite Hop. cbn [nth_err bind].
  change (strip "") with "". cbn [replace]. rewrite interleave_empty.
  rewrite <- Hs, strip_idem, Hs. reflexivity.
Qed.

Lemma pip_leading_operator_witness :
  strip "  ==1.0 " = String "=" "=1.0" /\ is_req_op "=" = true /\
  parse_pip_line "  ==1.0 " = Ok [mk_dep "" (PStr "==1.0") "pip" false].
Proof.
  assert (H1 : strip "  ==1.0 " = String "=" "=1.0") by reflexivity.
  assert (H2 : is_req_op "=" = true) by reflexivity.
  refine (conj H1 (conj H2 _)).
  exact (pip_leading_operator "  ==1.0 " "=" "=1.0" H1 H2).
Defined.

End DepsFacts.

(** ** The technologies reported *)
Module DetectorFacts.
Import Analyzer Deps Tech Reference TechAux TechFacts.

Lemma detect_emitted : forall fc files deps,
  detect_technologies fc files deps =
  emitted (fold_left update_max (file_updates fc files ++ dep_updates deps) []).
Proof.
  intros fc files deps. unfold detect_technologies.
  rewrite file_loop, dep_loop, <- fold_left_app. reflexivity.
Qed.

Lemma in_emitted : forall x d,
  In x (emitted d) ->
  exists n v, In (n, v) d /\ (1 < v)%Z /\ x = mk_tech n (category_of n technology_patterns) v.
Proof.
  intros x d H. unfold emitted in H. apply in_flat_map in H as [[n v] [Hin H]].
  destruct (Z.ltb_spec 1 v); [|destruct H]. destruct H as [<-|[]]. eauto.
Qed.

Lemma emitted_names : forall d,
  map tech_name (emitted d) = map fst (filter (fun kv => (1 <? snd kv)%Z) d).
Proof.
  induction d as [|[n v] d IH]; [reflexivity|]. unfold emitted in *.
  cbn [flat_map filter snd]. rewrite map_app, IH.
  destruct (1 <? v)%Z; reflexivity.
Qed.

Lemma nodup_fst_filter : forall (p : string * Z -> bool) d,
  NoDup (map fst d) -> NoDup (map fst (filter p d)).
Proof.
  intros p d. induction d as [|[n v] d IH]; intro Hd; [constructor|].
  inversion Hd as [|? ? Hnin Hd']; subst. simpl.
  destruct (p (n, v)); simpl; [|apply IH; exact Hd'].
  constructor; [|apply IH; exact Hd'].
  intro H. apply Hnin. apply in_map_iff in H as [[k w] [Hk Hin]]. simpl in Hk. subst k.
  apply filter_In in Hin as [Hin _]. apply (in_map fst) in Hin. exact Hin.
Qed.

Lemma dict_get_in : forall n v d, NoDup (map fst d) -> In (n, v) d -> dict_get n d = Some v.
Proof.
  intros n v d. induction d as [|[k w] d IH]; intros Hd Hin; [destruct Hin|].
  inversion Hd as [|? ? Hnin Hd']; subst. simpl in Hin |- *.
  destruct Hin as [E|Hin].
  - injection E as -> ->. rewrite String.eqb_refl. reflexivity.
  - destruct (String.eqb_spec k n); [|apply IH; assumption].
    subst. exfalso. apply Hnin. apply (in_map fst) in Hin. exact Hin.
Qed.

Lemma flat_map_nil : forall {A B} (F : A -> list B) l,
  (forall x, F x = []) -> flat_map F l = [].
Proof. intros A B F l H. induction l as [|x l IH]; [reflexivity|]. simpl. rewrite H, IH. reflexivity. Qed.

Lemma evidence_le10 : forall fc t files deps x,
  In x (evidence fc t files deps) -> (x <= 10)%Z.
Proof.
  intros fc t files deps x H. unfold evidence in H. apply in_app_or in H as [H|H].
  - unfold content_evidence in H. apply in_flat_map in H as [f [_ H]].
    destruct (content f =? ""); [destruct H|]. apply in_flat_map in H as [p [_ H]].
    unfold pattern_evidence in H. destruct (negb _); [|destruct H].
    destruct (0 <? fc p (content f))%nat; [|destruct H]. destruct H as [<-|[]]. lia.
  - unfold dependency_evidence in H. apply in_flat_map in H as [d [_ H]].
    apply in_flat_map in H as [p [_ H]].
    destruct (contains _ _); [|destruct H]. destruct H as [<-|[]]. lia.
Qed.

Lemma evidence_needs_catalog : forall fc t files deps,
  evidence fc t files deps <> [] -> In t (map fst all_technologies).
Proof.
  intros fc t files deps H. destruct (in_dec string_dec t (map fst all_technologies)) as [Hi|Hn];
    [exact Hi|].
  exfalso. apply H. unfold evidence, content_evidence, dependency_evidence, patterns_of.
  rewrite (assoc_none t all_technologies Hn).
  rewrite !flat_map_nil; [reflexivity| |]; intro x; [reflexivity|].
  destruct (content x =? ""); reflexivity.
Qed.

Lemma catalog_categories : forall n,
  In n (map fst all_technologies) ->
  In (category_of n technology_patterns) ["frameworks"; "databases"; "testing"].
Proof.
  intros n H.
  assert (Hc : forallb (fun n => existsb (String.eqb (category_of n technology_patterns))
                                  ["frameworks"; "databases"; "testing"])
                       (map fst all_technologies) = true) by (vm_compute; reflexivity).
  rewrite forallb_forall in Hc. specialize (Hc n H).
  apply existsb_exists in Hc as [c [Hin Hc]]. apply String.eqb_eq in Hc. rewrite Hc. exact Hin.
Qed.

(** X19: [detect_technologies] reports each technology at most once; each
    one reported is a technology of the catalog, its category is
    [frameworks], [databases] or [testing] (never [other]), and its
    confidence lies between 0.3 and 1.0. *)
Theorem detected_technologies_well_formed : forall findall_count files deps,
  NoDup (map tech_name (detect_technologies findall_count files deps)) /\
  forall x, In x (detect_technologies findall_count files deps) ->
    In (tech_name x) (map fst all_technologies) /\
    In (tech_category x) ["frameworks"; "databases"; "testing"] /\
    (3 <= confidence x <= 10)%Z.
Proof.
  intros fc files deps.
  assert (Hnd : NoDup (map fst (fold_left update_max (file_updates fc files ++ dep_updates deps) [])))
    by (apply nodup_updates; constructor).
  split.
  - rewrite detect_emitted, emitted_names. apply nodup_fst_filter. exact Hnd.
  - intros x Hx. pose proof Hx as Hx'. rewrite detect_emitted in Hx'.
    destruct (in_emitted _ _ Hx') as [n [v [Hin [Hv ->]]]]. cbn [tech_name tech_category confidence].
    assert (Hc : conf_of n (detect_technologies fc files deps) = Some v).
    { rewrite detect_emitted, conf_of_emitted by exact Hnd.
      rewrite (dict_get_in n v _ Hnd Hin). destruct (Z.ltb_spec 1 v); [reflexivity|lia]. }
    rewrite conf_of_detect in Hc.
    assert (Hne : evidence fc n files deps <> []) by (intro E; rewrite E in Hc; discriminate).
    pose proof (evidence_needs_catalog fc n files deps Hne) as Hcat.
    split; [exact Hcat|]. split; [apply catalog_categories; exact Hcat|].
    destruct (evidence fc n files deps) as [|e es] eqn:E; [congruence|].
    injection Hc as <-.
    change (Z.max e (fold_right Z.max 0%Z es)) with (fold_right Z.max 0%Z (e :: es)). split.
    + transitivity e; [apply (evidence_ge3 fc n files deps); rewrite E; left; reflexivity|].
      apply fr_ge. left. reflexivity.
    + apply fr_le; [lia|]. intros y Hy. apply (evidence_le10 fc n files deps). rewrite E. exact Hy.
Qed.

(** X20: a dependency whose lower-cased name contains a lower-cased pattern
    of a technology as a substring makes that technology reported with
    confidence at least 0.8, whatever the files hold (so ["pg"] makes any
    dependency with ["pg"] in its name a PostgreSQL one). *)
Theorem dependency_substring_reports : forall findall_count files deps d t p,
  In d deps -> In p (patterns_of t) ->
  contains (lower (dep_name d)) (lower p) = true ->
  exists v, conf_of t (detect_technologies findall_count files deps) = Some v /\ (8 <= v)%Z.
Proof.
  intros fc files deps d t p Hd Hp Hc. rewrite conf_of_detect.
  assert (H8 : In 8%Z (evidence fc t files deps)).
  { unfold evidence. apply in_or_app. right. unfold dependency_evidence.
    apply in_flat_map. exists d. split; [exact Hd|].
    apply in_flat_map. exists p. split; [exact Hp|]. rewrite Hc. left. reflexivity. }
  destruct (evidence fc t files deps) as [|e es] eqn:E; [destruct H8|].
  exists (fold_right Z.max 0%Z (e :: es)). split; [reflexivity|]. apply fr_ge. exact H8.
Qed.

Lemma dependency_substring_reports_witness :
  let deps := [mk_dep "pgp-signer" (PStr "1.2") "npm" false] in
  In (mk_dep "pgp-signer" (PStr "1.2") "npm" false) deps /\
  In "pg" (patterns_of "PostgreSQL") /\
  contains (lower "pgp-signer") (lower "pg") = true /\
  exists v, conf_of "PostgreSQL" (detect_technologies (fun _ _ => 0%nat) [] deps) = Some v /\
            (8 <= v)%Z.
Proof.
  intro deps.
  assert (H1 : In (mk_dep "pgp-signer" (PStr "1.2") "npm" false) deps) by (left; reflexivity).
  assert (H2 : In "pg" (patterns_of "PostgreSQL")) by (vm_compute; right; right; left; reflexivity).
  assert (H3 : contains (lower "pgp-signer") (lower "pg") = true) by reflexivity.
  refine (conj H1 (conj H2 (conj H3 _))).
  exact (dependency_substring_reports (fun _ _ => 0%nat) [] deps _ "PostgreSQL" "pg" H1 H2 H3).
Defined.

End DetectorFacts.

(** ** Metrics of the architecture document *)
Module DocsFacts.
Import Analyzer Docs ExtraAux StrFacts.

Lemma top_dirs_fold : forall files acc d,
  In d (fold_left (fun acc f =>
          if contains (path f) "/" then Gitignore.set_add acc (hd "" (split "/" (path f)))
          else acc) files acc) <->
  In d acc \/ exists f, In f files /\ contains (path f) "/" = true /\ d = hd "" (split "/" (path f)).
Proof.
  induction files as [|f files IH]; intros acc d; simpl.
  - split; [tauto|]. intros [H|[f [[] _]]]. exact H.
  - rewrite IH. destruct (contains (path f) "/") eqn:E.
    + rewrite GitignoreFacts.set_add_in. split.
      * intros [[H|H]|[g [Hg [Hc Hd]]]]; [right; exists f; auto|left; exact H|right; exists g; auto].
      * intros [H|[g [[<-|Hg] [Hc Hd]]]]; [left; right; exact H|left; left; exact Hd|right; exists g; auto].
    + split.
      * intros [H|[g [Hg [Hc Hd]]]]; [left; exact H|right; exists g; auto].
      * intros [H|[g [[<-|Hg] [Hc Hd]]]]; [left; exact H|congruence|right; exists g; auto].
Qed.

Lemma set_add_nodup : forall s x, NoDup s -> NoDup (Gitignore.set_add s x).
Proof.
  intros s x Hs. unfold Gitignore.set_add. destruct (existsb (String.eqb x) s) eqn:E; [exact Hs|].
  apply NoDup_app; [exact Hs|constructor; [intros []|constructor]|].
  intros y Hy [Hxy|[]]. subst y. assert (existsb (String.eqb x) s = true)
    by (apply existsb_exists; exists x; split; [exact Hy|apply String.eqb_refl]). congruence.
Qed.

Lemma top_dirs_nodup : forall files, NoDup (top_directories files).
Proof.
  intro files. unfold top_directories.
  assert (H : forall files acc, NoDup acc ->
            NoDup (fold_left (fun acc f =>
              if contains (path f) "/" then Gitignore.set_add acc (hd "" (split "/" (path f)))
              else acc) files acc)).
  { induction files0 as [|f fs IH]; intros acc Hacc; [exact Hacc|]. simpl. apply IH.
    destruct (contains (path f) "/"); [apply set_add_nodup|]; exact Hacc. }
  apply H. constructor.
Qed.

Lemma hd_split_in : forall c s, In (hd "" (split c s)) (split c s).
Proof. intros c s. destruct (ParserTotality.split_cons c s) as [x [xs ->]]. left. reflexivity. Qed.

Lemma startswith_dir : forall d p,
  has_char "/" d = false ->
  startswith p (d ++ "/") = has_char "/" p && (hd "" (split "/" p) =? d).
Proof.
  induction d as [|x d IH]; intros p Hd.
  - destruct p as [|e p]; [reflexivity|]. cbn [append startswith]. rewrite startswith_empty.
    unfold has_char. cbn [list_ascii_of_string existsb split].
    destruct (Ascii.eqb_spec "/" e) as [<-|Hne].
    + rewrite Ascii.eqb_refl. reflexivity.
    + rewrite (proj2 (Ascii.eqb_neq e "/") (not_eq_sym Hne)).
      destruct (split "/" p); destruct (existsb _ _); reflexivity.
  - unfold has_char in Hd. cbn [list_ascii_of_string existsb] in Hd.
    apply orb_false_iff in Hd as [Hx Hd].
    destruct p as [|e p]; [reflexivity|]. cbn [append startswith]. rewrite (IH p Hd).
    unfold has_char. cbn [list_ascii_of_string existsb split].
    destruct (Ascii.eqb_spec "/" e) as [<-|Hne].
    + rewrite Ascii.eqb_refl, (Ascii.eqb_sym x "/"), Hx. reflexivity.
    + rewrite (proj2 (Ascii.eqb_neq e "/") (not_eq_sym Hne)). cbn [orb].
      destruct (ParserTotality.split_cons "/" p) as [y [ys Hs]]. rewrite Hs. cbn [hd].
      destruct (Ascii.eqb_spec x e) as [<-|Hxe].
      * cbn [String.eqb]. rewrite Ascii.eqb_refl. reflexivity.
      * change ((String e y =? String x d)%string) with
          (if Ascii.eqb e x then (y =? d)%string else false).
        rewrite (proj2 (Ascii.eqb_neq e x) (not_eq_sym Hxe)), andb_false_r. reflexivity.
Qed.

Lemma top_dirs_no_slash : forall files d, In d (top_directories files) -> has_char "/" d = false.
Proof.
  intros files d H. unfold top_directories in H. apply top_dirs_fold in H as [[]|[f [_ [_ ->]]]].
  apply (split_pieces "/" (path f)). apply hd_split_in.
Qed.

Lemma filter_none : forall {A} (p : A -> bool) l,
  (forall y, In y l -> p y = false) -> filter p l = [].
Proof.
  intros A p l. induction l as [|x l IH]; intro H; [reflexivity|]. simpl.
  rewrite (H x (or_introl eq_refl)). apply IH. intros y Hy. apply H. right. exact Hy.
Qed.

Lemma count_in_nodup : forall h l, NoDup l -> In h l -> List.length (filter (fun d => h =? d) l) = 1%nat.
Proof.
  intros h l. induction l as [|x l IH]; intros Hnd Hin; [destruct Hin|].
  inversion Hnd as [|? ? Hnin Hnd']; subst. simpl.
  destruct (String.eqb_spec h x) as [<-|Hne].
  - simpl. f_equal. rewrite filter_none; [reflexivity|].
    intros y Hy. apply String.eqb_neq. intro E. subst. contradiction.
  - destruct Hin as [E|Hin]; [congruence|]. apply IH; assumption.
Qed.

Lemma length_filter_sum : forall {A} (p : A -> bool) l,
  List.length (filter p l) = list_sum (map (fun x => if p x then 1%nat else 0%nat) l).
Proof.
  intros A p l. induction l as [|x l IH]; [reflexivity|]. simpl.
  destruct (p x); simpl; rewrite IH; reflexivity.
Qed.

Lemma list_sum_map_add : forall {A} (a b : A -> nat) l,
  list_sum (map (fun x => (a x + b x)%nat) l) = (list_sum (map a l) + list_sum (map b l))%nat.
Proof. intros A a b l. induction l as [|x l IH]; [reflexivity|]. simpl. rewrite IH. lia. Qed.

Lemma sum_swap : forall (P : string -> file -> bool) dirs files,
  list_sum (map (fun d => List.length (filter (P d) files)) dirs) =
  list_sum (map (fun f => List.length (filter (fun d => P d f) dirs)) files).
Proof.
  intros P dirs files. induction files as [|f files IH].
  - simpl. induction dirs as [|d dirs IHd]; [reflexivity|]. simpl. exact IHd.
  - transitivity (list_sum (map (fun d =>
      ((if P d f then 1 else 0) + List.length (filter (P d) files))%nat) dirs)).
    + f_equal. apply map_ext. intro d. simpl. destruct (P d f); reflexivity.
    + rewrite list_sum_map_add, IH, <- (length_filter_sum (fun d => P d f)). reflexivity.
Qed.

Lemma dirs_of_file : forall files f,
  In f files ->
  List.length (filter (fun d => startswith (path f) (d ++ "/")) (top_directories files)) =
  if contains (path f) "/" then 1%nat else 0%nat.
Proof.
  intros files f Hf.
  rewrite (filter_ext_in _ (fun d => has_char "/" (path f) && (hd "" (split "/" (path f)) =? d)))
    by (intros d Hd; apply startswith_dir; eapply top_dirs_no_slash; exact Hd).
  rewrite ClientFacts.has_char_contains. destruct (contains (path f) "/") eqn:E.
  - cbn [andb]. apply count_in_nodup; [apply top_dirs_nodup|].
    unfold top_directories. apply top_dirs_fold. right. exists f. auto.
  - cbn [andb]. induction (top_directories files); [reflexivity|]. exact IHl.
Qed.

(** X21: in the architecture document no top-level directory is listed
    twice, a file whose path holds a [/] falls under exactly one listed
    directory and a file at the root under none; so the per-directory file
    counts add up to the number of files outside the root. *)
Theorem directories_partition_files : forall files,
  NoDup (top_directories files) /\
  (forall f, In f files ->
     List.length (filter (fun d => startswith (path f) (d ++ "/")) (top_directories files)) =
     if contains (path f) "/" then 1%nat else 0%nat) /\
  list_sum (map (fun d => List.length (files_in_dir files d)) (top_directories files)) =
  List.length (filter (fun f => contains (path f) "/") files).
Proof.
  intro files. split; [apply top_dirs_nodup|]. split; [apply dirs_of_file|].
  unfold files_in_dir.
  rewrite (sum_swap (fun d f => startswith (path f) (d ++ "/"))).
  rewrite length_filter_sum. f_equal. apply map_ext_in. intros f Hf.
  apply dirs_of_file. exact Hf.
Qed.

Lemma stats_add_sums : forall d lang lines,
  list_sum (map (fun kv => fst (snd kv)) (stats_add d lang lines)) =
    S (list_sum (map (fun kv => fst (snd kv)) d)) /\
  list_sum (map (fun kv => snd (snd kv)) (stats_add d lang lines)) =
    (list_sum (map (fun kv => snd (snd kv)) d) + lines)%nat.
Proof.
  induction d as [|[k [fc lc]] d IH]; intros lang lines; simpl; [split; lia|].
  destruct (k =? lang); simpl.
  - split; lia.
  - destruct (IH lang lines) as [H1 H2]. rewrite H1, H2. split; lia.
Qed.

Lemma stats_add_keys : forall d lang lines x,
  In x (map fst (stats_add d lang lines)) <-> x = lang \/ In x (map fst d).
Proof.
  induction d as [|[k [fc lc]] d IH]; intros lang lines x; simpl; [intuition (subst; auto)|].
  destruct (String.eqb_spec k lang) as [->|Hne]; simpl; [intuition (subst; auto)|].
  rewrite IH. intuition (subst; auto).
Qed.

Lemma stats_add_nodup : forall d lang lines,
  NoDup (map fst d) -> NoDup (map fst (stats_add d lang lines)).
Proof.
  induction d as [|[k [fc lc]] d IH]; intros lang lines Hd; simpl.
  - constructor; [intros []|constructor].
  - inversion Hd as [|? ? Hnin Hd']; subst. destruct (String.eqb_spec k lang); simpl.
    + constructor; assumption.
    + constructor; [|apply IH; exact Hd']. rewrite stats_add_keys. intros [H|H]; [congruence|contradiction].
Qed.

(** X22: the language statistics of the architecture document list each
    language once, their file counts add up to the number of files and their
    line counts add up to [total_loc] of the README. *)
Theorem lang_stats_totals : forall files,
  NoDup (map fst (lang_stats files)) /\
  list_sum (map (fun kv => fst (snd kv)) (lang_stats files)) = List.length files /\
  list_sum (map (fun kv => snd (snd kv)) (lang_stats files)) = total_loc files.
Proof.
  intro files. unfold lang_stats, total_loc.
  assert (H : forall fs acc, NoDup (map fst acc) ->
    let r := fold_left (fun acc f => stats_add acc (language f) (line_count f)) fs acc in
    NoDup (map fst r) /\
    list_sum (map (fun kv => fst (snd kv)) r) = (list_sum (map (fun kv => fst (snd kv)) acc) + List.length fs)%nat /\
    list_sum (map (fun kv => snd (snd kv)) r) =
      (list_sum (map (fun kv => snd (snd kv)) acc) + list_sum (map line_count fs))%nat).
  { induction fs as [|f fs IH]; intros acc Hacc; cbv zeta; simpl.
    - split; [exact Hacc|]. split; lia.
    - destruct (IH (stats_add acc (language f) (line_count f))) as [H1 [H2 H3]];
        [apply stats_add_nodup; exact Hacc|].
      destruct (stats_add_sums acc (language f) (line_count f)) as [S1 S2].
      split; [exact H1|]. rewrite H2, H3, S1, S2. split; lia. }
  destruct (H files [] (NoDup_nil _)) as [H1 [H2 H3]]. simpl in H2, H3.
  split; [exact H1|]. split; assumption.
Qed.

End DocsFacts.

(** ** The PlantUML encoding *)
Module PlantUMLFacts.
Import PlantUML ExtraAux StrFacts.

Lemma in_zrange : forall z n, (0 <= z < Z.of_nat n)%Z -> In z (zrange n).
Proof.
  intros z n H. unfold zrange. apply in_map_iff. exists (Z.to_nat z).
  split; [apply Z2Nat.id; lia|]. apply in_seq. lia.
Qed.

Lemma forall_zrange : forall (p : Z -> bool) n z,
  forallb p (zrange n) = true -> (0 <= z < Z.of_nat n)%Z -> p z = true.
Proof.
  intros p n z H Hz. rewrite forallb_forall in H. apply H, in_zrange. exact Hz.
Qed.

Lemma forall_zrange2 : forall (p : Z -> Z -> bool) n m x y,
  forallb (fun x => forallb (p x) (zrange m)) (zrange n) = true ->
  (0 <= x < Z.of_nat n)%Z -> (0 <= y < Z.of_nat m)%Z -> p x y = true.
Proof.
  intros p n m x y H Hx Hy.
  apply (forall_zrange (p x) m y); [|exact Hy].
  apply (forall_zrange (fun x => forallb (p x) (zrange m)) n x H Hx).
Qed.

Lemma land_ones_range : forall a n, (0 <= n)%Z -> (0 <= Z.land a (Z.ones n) < 2 ^ n)%Z.
Proof.
  intros a n Hn. rewrite Z.land_ones by exact Hn. apply Z.mod_pos_bound.
  apply Z.pow_pos_nonneg; lia.
Qed.

Lemma land63 : forall a, (0 <= Z.land a 63 < 64)%Z.
Proof. intro a. exact (land_ones_range a 6 ltac:(lia)). Qed.
Lemma land15 : forall a, (0 <= Z.land a 15 < 16)%Z.
Proof. intro a. exact (land_ones_range a 4 ltac:(lia)). Qed.
Lemma land3 : forall a, (0 <= Z.land a 3 < 4)%Z.
Proof. intro a. exact (land_ones_range a 2 ltac:(lia)). Qed.

Definition alphabet_ok (i : Z) : bool :=
  match alphabet_at i with
  | String c EmptyString => has_char c alphabet && (sextet c =? i)%Z
  | _ => false
  end.

Lemma alphabet_at_ok : forall i, (0 <= i < 64)%Z ->
  exists c, alphabet_at i = String c EmptyString /\ has_char c alphabet = true /\ sextet c = i.
Proof.
  intros i Hi.
  assert (H : alphabet_ok i = true)
    by (apply (forall_zrange alphabet_ok 64); [vm_compute; reflexivity|exact Hi]).
  unfold alphabet_ok in H. destruct (alphabet_at i) as [|c [|d s]]; try discriminate.
  apply andb_true_iff in H as [H1 H2]. apply Z.eqb_eq in H2. eauto.
Qed.

Lemma index2_range : forall b1 b2,
  (0 <= Z.lor (Z.shiftl (Z.land b1 3) 4) (Z.land (Z.shiftr b2 4) 15) < 64)%Z.
Proof.
  intros b1 b2.
  assert (H : forallb (fun x => forallb (fun y =>
                (0 <=? Z.lor (Z.shiftl x 4) y) && (Z.lor (Z.shiftl x 4) y <? 64))%Z (zrange 16))
                (zrange 4) = true) by (vm_compute; reflexivity).
  pose proof (forall_zrange2 _ 4 16 _ _ H (land3 b1) (land15 (Z.shiftr b2 4))) as E.
  cbv beta in E. apply andb_true_iff in E as [E1 E2]. lia.
Qed.

Lemma index3_range : forall b2 b3,
  (0 <= Z.lor (Z.shiftl (Z.land b2 15) 2) (Z.land (Z.shiftr b3 6) 3) < 64)%Z.
Proof.
  intros b2 b3.
  assert (H : forallb (fun x => forallb (fun y =>
                (0 <=? Z.lor (Z.shiftl x 2) y) && (Z.lor (Z.shiftl x 2) y <? 64))%Z (zrange 4))
                (zrange 16) = true) by (vm_compute; reflexivity).
  pose proof (forall_zrange2 _ 16 4 _ _ H (land15 b2) (land3 (Z.shiftr b3 6))) as E.
  cbv beta in E. apply andb_true_iff in E as [E1 E2]. lia.
Qed.

Lemma encode_chunk_shape : forall b1 b2 b3,
  exists c1 c2 c3 c4,
    encode_chunk b1 b2 b3 = String c1 (String c2 (String c3 (String c4 EmptyString))) /\
    has_char c1 alphabet = true /\ has_char c2 alphabet = true /\
    has_char c3 alphabet = true /\ has_char c4 alphabet = true /\
    sextet c1 = Z.land (Z.shiftr b1 2) 63 /\
    sextet c2 = Z.lor (Z.shiftl (Z.land b1 3) 4) (Z.land (Z.shiftr b2 4) 15) /\
    sextet c3 = Z.lor (Z.shiftl (Z.land b2 15) 2) (Z.land (Z.shiftr b3 6) 3) /\
    sextet c4 = Z.land b3 63.
Proof.
  intros b1 b2 b3. unfold encode_chunk.
  destruct (alphabet_at_ok _ (land63 (Z.shiftr b1 2))) as [c1 [-> [A1 S1]]].
  destruct (alphabet_at_ok _ (index2_range b1 b2)) as [c2 [-> [A2 S2]]].
  destruct (alphabet_at_ok _ (index3_range b2 b3)) as [c3 [-> [A3 S3]]].
  destruct (alphabet_at_ok _ (land63 b3)) as [c4 [-> [A4 S4]]].
  exists c1, c2, c3, c4. repeat split; assumption.
Qed.

Lemma str_length_app : forall a b, String.length (a ++ b) = (String.length a + String.length b)%nat.
Proof. induction a as [|c a IH]; intro b; simpl; [reflexivity|]. rewrite IH. reflexivity. Qed.

Lemma list_ascii_app : forall a b,
  list_ascii_of_string (a ++ b) = (list_ascii_of_string a ++ list_ascii_of_string b)%list.
Proof. induction a as [|c a IH]; intro b; simpl; [reflexivity|]. rewrite IH. reflexivity. Qed.

Lemma encode_chunk_props : forall b1 b2 b3,
  String.length (encode_chunk b1 b2 b3) = 4%nat /\
  Forall (fun c => has_char c alphabet = true) (list_ascii_of_string (encode_chunk b1 b2 b3)).
Proof.
  intros b1 b2 b3. destruct (encode_chunk_shape b1 b2 b3)
    as [c1 [c2 [c3 [c4 [-> [A1 [A2 [A3 [A4 _]]]]]]]]].
  split; [reflexivity|]. simpl. repeat constructor; assumption.
Qed.

(** X23: [encode_base64] turns [n] bytes into [4 * ceil(n / 3)]
    characters, all of them from the 64-character PlantUML alphabet, for
    every list of integers (each index is masked into [0, 63]). *)
Theorem encode_base64_length_alphabet : forall data,
  String.length (encode_base64 data) = (4 * ((List.length data + 2) / 3))%nat /\
  Forall (fun c => has_char c alphabet = true) (list_ascii_of_string (encode_base64 data)).
Proof.
  assert (H : forall n data, (List.length data <= n)%nat ->
    String.length (encode_base64 data) = (4 * ((List.length data + 2) / 3))%nat /\
    Forall (fun c => has_char c alphabet = true) (list_ascii_of_string (encode_base64 data))).
  { induction n as [|n IH]; intros data Hl.
    - destruct data; [split; [reflexivity|constructor]|simpl in Hl; lia].
    - destruct data as [|b1 [|b2 [|b3 rest]]].
      + split; [reflexivity|constructor].
      + apply encode_chunk_props.
      + apply encode_chunk_props.
      + cbn [encode_base64]. destruct (encode_chunk_props b1 b2 b3) as [L1 F1].
        destruct (IH rest) as [L2 F2]; [simpl in Hl; lia|].
        rewrite str_length_app, list_ascii_app, L1, L2. split; [|apply Forall_app; split; assumption].
        cbn [List.length].
        replace (S (S (S (List.length rest))) + 2)%nat with ((List.length rest + 2) + 1 * 3)%nat by lia.
        rewrite Nat.div_add by lia. lia. }
  intro data. apply (H (List.length data)). lia.
Qed.

(** The identities behind the decoder, one per chunk position. *)
Definition byte1_ok (b1 b2 : Z) : bool :=
  (Z.land (Z.shiftr b1 2) 63 * 4 +
   Z.lor (Z.shiftl (Z.land b1 3) 4) (Z.land (Z.shiftr b2 4) 15) / 16 =? b1)%Z.

Definition index2_ok (b1 b2 : Z) : bool :=
  (Z.lor (Z.shiftl (Z.land b1 3) 4) (Z.land (Z.shiftr b2 4) 15) mod 16 =?
   Z.land (Z.shiftr b2 4) 15)%Z.

Definition index3_ok (b2 b3 : Z) : bool :=
  ((Z.lor (Z.shiftl (Z.land b2 15) 2) (Z.land (Z.shiftr b3 6) 3) / 4 =? Z.land b2 15) &&
   (Z.lor (Z.shiftl (Z.land b2 15) 2) (Z.land (Z.shiftr b3 6) 3) mod 4 =?
    Z.land (Z.shiftr b3 6) 3))%Z.

Definition byte_ok (b : Z) : bool :=
  ((Z.land (Z.shiftr b 4) 15 * 16 + Z.land b 15 =? b) &&
   (Z.land (Z.shiftr b 6) 3 * 64 + Z.land b 63 =? b))%Z.

Lemma decode_chunk : forall b1 b2 b3 s,
  (0 <= b1 < 256)%Z -> (0 <= b2 < 256)%Z -> (0 <= b3 < 256)%Z ->
  decode_base64 (encode_chunk b1 b2 b3 ++ s) = b1 :: b2 :: b3 :: decode_base64 s.
Proof.
  intros b1 b2 b3 s H1 H2 H3.
  destruct (encode_chunk_shape b1 b2 b3) as [c1 [c2 [c3 [c4 [-> [_ [_ [_ [_ [S1 [S2 [S3 S4]]]]]]]]]]]].
  cbn [append decode_base64]. rewrite S1, S2, S3, S4.
  assert (C1 : forallb (fun x => forallb (byte1_ok x) (zrange 256)) (zrange 256) = true)
    by (vm_compute; reflexivity).
  assert (C2 : forallb (fun x => forallb (index2_ok x) (zrange 256)) (zrange 256) = true)
    by (vm_compute; reflexivity).
  assert (C3 : forallb (fun x => forallb (index3_ok x) (zrange 256)) (zrange 256) = true)
    by (vm_compute; reflexivity).
  assert (C4 : forallb byte_ok (zrange 256) = true) by (vm_compute; reflexivity).
  pose proof (forall_zrange2 byte1_ok 256 256 b1 b2 C1 H1 H2) as E1.
  pose proof (forall_zrange2 index2_ok 256 256 b1 b2 C2 H1 H2) as E2.
  pose proof (forall_zrange2 index3_ok 256 256 b2 b3 C3 H2 H3) as E3.
  pose proof (forall_zrange byte_ok 256 b2 C4 H2) as E4.
  pose proof (forall_zrange byte_ok 256 b3 C4 H3) as E5.
  unfold byte1_ok, index2_ok, index3_ok, byte_ok in E1, E2, E3, E4, E5.
  apply Z.eqb_eq in E1, E2.
  apply andb_true_iff in E3 as [E3 E3']. apply Z.eqb_eq in E3, E3'.
  apply andb_true_iff in E4 as [E4 _]. apply andb_true_iff in E5 as [_ E5].
  apply Z.eqb_eq in E4, E5.
  rewrite E1, E2, E3, E3', E4, E5. reflexivity.
Qed.

(** X24: for bytes ([0 <= b < 256]) the encoding loses nothing: decoding
    four characters back into three bytes returns the data followed by the
    zero bytes that padded its last chunk. *)
Theorem encode_base64_round_trip : forall data,
  Forall (fun b => (0 <= b < 256)%Z) data ->
  decode_base64 (encode_base64 data) =
  (data ++ repeat 0%Z ((3 - List.length data mod 3) mod 3))%list.
Proof.
  assert (H : forall n data, (List.length data <= n)%nat ->
    Forall (fun b => (0 <= b < 256)%Z) data ->
    decode_base64 (encode_base64 data) =
    (data ++ repeat 0%Z ((3 - List.length data mod 3) mod 3))%list).
  { induction n as [|n IH]; intros data Hl Hb.
    - destruct data; [reflexivity|simpl in Hl; lia].
    - destruct data as [|b1 [|b2 [|b3 rest]]].
      + reflexivity.
      + inversion Hb; subst. cbn [encode_base64].
        rewrite <- (str_app_nil_r (encode_chunk b1 0 0)), decode_chunk by (assumption || lia).
        reflexivity.
      + inversion Hb as [|? ? Hb1 Hb']; subst. inversion Hb' as [|? ? Hb2 _]; subst.
        cbn [encode_base64].
        rewrite <- (str_app_nil_r (encode_chunk b1 b2 0)), decode_chunk by (assumption || lia).
        reflexivity.
      + inversion Hb as [|? ? Hb1 Hb']; subst. inversion Hb' as [|? ? Hb2 Hb'']; subst.
        inversion Hb'' as [|? ? Hb3 Hr]; subst.
        cbn [encode_base64]. rewrite decode_chunk by assumption.
        rewrite IH by (simpl in Hl; lia || assumption).
        cbn [List.length app].
        replace (S (S (S (List.length rest)))) with (List.length rest + 1 * 3)%nat by lia.
        rewrite Nat.Div0.mod_add. reflexivity. }
  intros data Hb. apply (H (List.length data)); [lia|exact Hb].
Qed.

Lemma encode_base64_round_trip_witness :
  Forall (fun b => (0 <= b < 256)%Z) [120; 156; 1; 2; 255]%Z /\
  decode_base64 (encode_base64 [120; 156; 1; 2; 255]%Z) = [120; 156; 1; 2; 255; 0]%Z.
Proof.
  assert (H : Forall (fun b => (0 <= b < 256)%Z) [120; 156; 1; 2; 255]%Z)
    by (repeat constructor; lia).
  exact (conj H (encode_base64_round_trip _ H)).
Defined.

Lemma split_join : forall c lines,
  lines <> [] -> Forall (fun l => has_char c l = false) lines ->
  split c (join (String c EmptyString) lines) = lines.
Proof.
  intros c lines. induction lines as [|x [|y ls] IH]; intros Hne Hf; [congruence| |].
  - inversion Hf; subst. simpl. apply split_no_sep. assumption.
  - inversion Hf as [|? ? Hx Hr]; subst.
    change (join (String c EmptyString) (x :: y :: ls))
      with (x ++ String c EmptyString ++ join (String c EmptyString) (y :: ls)).
    cbn [append]. rewrite split_app_sep by exact Hx.
    rewrite IH by (discriminate || exact Hr). reflexivity.
Qed.

Lemma join_cons : forall sep x l, l <> [] -> join sep (x :: l) = x ++ sep ++ join sep l.
Proof. intros sep x [|y l] H; [congruence|reflexivity]. Qed.

Lemma firstn_length_app : forall {A} (l l' : list A), firstn (List.length l) (l ++ l') = l.
Proof. intros A l l'. induction l as [|x l IH]; [reflexivity|]. simpl. rewrite IH. reflexivity. Qed.

(** X25: a diagram text whose stripped form starts with [@startuml] loses
    its first line (whatever follows [@startuml] on it) and its last line
    before compression, whatever that last line is: the code assumes it is
    [@enduml] and never checks it. *)
Theorem plantuml_source_drops_last_line : forall t first body last,
  strip t = join newline (first :: body ++ [last]) ->
  startswith first "@startuml" = true ->
  Forall (fun l => has_char "010" l = false) (first :: body ++ [last]) ->
  plantuml_source t = join newline body.
Proof.
  intros t first body last Hs Hf Hl. unfold plantuml_source. rewrite Hs.
  assert (Hne : (body ++ [last])%list <> []) by (destruct body; discriminate).
  assert (Hst : startswith (join newline (first :: body ++ [last])) "@startuml" = true).
  { rewrite (join_cons newline first _ Hne). destruct (startswith_spec _ _ Hf) as [u Hu].
    rewrite Hu, str_app_assoc. apply startswith_app. }
  rewrite Hst. unfold newline. rewrite split_join by (discriminate || exact Hl).
  unfold inner_lines. cbn [List.length skipn]. rewrite length_app. cbn [List.length].
  replace (S (List.length body + 1) - 2)%nat with (List.length body) by lia.
  rewrite firstn_length_app. reflexivity.
Qed.

Lemma plantuml_source_drops_last_line_witness :
  let t := ("  @startuml classes" ++ newline ++ "A -> B" ++ newline ++ "B -> C" ++ newline)%string in
  strip t = join newline ("@startuml classes" :: ["A -> B"] ++ ["B -> C"]) /\
  startswith "@startuml classes" "@startuml" = true /\
  Forall (fun l => has_char "010" l = false) ("@startuml classes" :: ["A -> B"] ++ ["B -> C"]) /\
  plantuml_source t = "A -> B".
Proof.
  intro t.
  assert (H1 : strip t = join newline ("@startuml classes" :: ["A -> B"] ++ ["B -> C"]))
    by (vm_compute; reflexivity).
  assert (H2 : startswith "@startuml classes" "@startuml" = true) by (vm_compute; reflexivity).
  assert (H3 : Forall (fun l => has_char "010" l = false)
                 ("@startuml classes" :: ["A -> B"] ++ ["B -> C"]))
    by (repeat constructor).
  refine (conj H1 (conj H2 (conj H3 _))).
  exact (plantuml_source_drops_last_line t "@startuml classes" ["A -> B"] "B -> C" H1 H2 H3).
Defined.

End PlantUMLFacts.
